(** * Webhook ingestion service: signature check, payload validation,
      idempotent message store, listing and statistics.

    A shallow embedding of [app/main.py], [app/models.py] and
    [app/storage.py].

    Conventions of the embedding.
    - A Python [str] is a [string]; an [ascii] stands for one character
      (code point below 256).  [str.encode("utf-8")] is written out for
      that range.
    - Python [bytes] are [list byte].
    - The SQLite table [messages] is the list of its rows in rowid
      (insertion) order; TEXT values compare with the BINARY collation,
      that is character by character.
    - [datetime('now')] is read from a clock value passed to the insert.
    - The integers bound to [LIMIT ? OFFSET ?] are [Z]; they are taken in
      the range of SQLite's 64-bit INTEGER. *)

From Stdlib Require Import ZArith List Bool Ascii String Lia Sorted
  Permutation.
From Stdlib Require Import Strings.Byte.
Import ListNotations.

Local Open Scope Z_scope.

(* ================================================================== *)
(** ** Python string and bytes primitives *)

Module Py.

Definition bytes := list byte.

Definition ord (c : ascii) : Z := Z.of_N (N_of_ascii c).
Definition chr (n : Z) : ascii := ascii_of_N (Z.to_N n).

Definition byte_val (b : byte) : Z := Z.of_N (Byte.to_N b).
Definition byte_of_Z (n : Z) : byte := byte_of_ascii (chr n).

(** [str.encode("utf-8")] for code points below 256: one byte below
    128, two bytes from 128 on. *)
Definition utf8_char (c : ascii) : bytes :=
  let n := ord c in
  if n <? 128 then [byte_of_Z n]
  else [byte_of_Z (Z.lor 192 (Z.shiftr n 6));
        byte_of_Z (Z.lor 128 (Z.land n 63))].

Fixpoint encode_utf8 (s : string) : bytes :=
  match s with
  | EmptyString => []
  | String c s' => utf8_char c ++ encode_utf8 s'
  end.

(** [str.isspace] on one character: the characters of the range whose
    bidirectional type is WS, B or S, or whose category is Zs. *)
Definition is_space (c : ascii) : bool :=
  let n := ord c in
  ((9 <=? n) && (n <=? 13)) || ((28 <=? n) && (n <=? 32))
  || (n =? 133) || (n =? 160).

Definition is_ascii (c : ascii) : bool := ord c <? 128.

Definition non_space (c : ascii) : bool := negb (is_space c).

(** A character that is ASCII and not white space. *)
Definition plain (c : ascii) : bool := non_space c && is_ascii c.

Fixpoint lstrip (s : string) : string :=
  match s with
  | EmptyString => EmptyString
  | String c s' => if is_space c then lstrip s' else s
  end.

(** [rstrip] keeps a character when it is not a space or when something
    is left after it. *)
Fixpoint rstrip (s : string) : string :=
  match s with
  | EmptyString => EmptyString
  | String c s' =>
      match rstrip s' with
      | EmptyString => if is_space c then EmptyString
                       else String c EmptyString
      | r => String c r
      end
  end.

(** [str.strip()] with no argument. *)
Definition strip (s : string) : string := rstrip (lstrip s).

Fixpoint all_chars (p : ascii -> bool) (s : string) : bool :=
  match s with
  | EmptyString => true
  | String c s' => p c && all_chars p s'
  end.

(** [str.endswith] with a one-character suffix. *)
Fixpoint endswith_char (s : string) (z : ascii) : bool :=
  match s with
  | EmptyString => false
  | String c EmptyString => Ascii.eqb c z
  | String _ s' => endswith_char s' z
  end.

(** [str.replace(old, new)] with a one-character [old]: every
    occurrence is replaced. *)
Fixpoint replace_char (s : string) (old : ascii) (new : string) : string :=
  match s with
  | EmptyString => EmptyString
  | String c s' =>
      if Ascii.eqb c old then (new ++ replace_char s' old new)%string
      else String c (replace_char s' old new)
  end.

(** Truthiness of a [str]: the empty string is falsy. *)
Definition truthy (s : string) : bool :=
  match s with EmptyString => false | _ => true end.

(** Truthiness of an [Optional[str]]: [None] and the empty string are falsy. *)
Definition truthy_opt (o : option string) : bool :=
  match o with Some s => truthy s | None => false end.

(** [sub in s] on strings: a case-sensitive substring test. *)
Fixpoint contains (s sub : string) : bool :=
  String.prefix sub s ||
  match s with
  | EmptyString => false
  | String _ s' => contains s' sub
  end.

End Py.

(* ================================================================== *)
(** ** SHA-256 (FIPS 180-4), as [hashlib.sha256] computes it *)

Module Sha256.
Import Py.

Definition mask32 : Z := 4294967295.
Definition w32 (x : Z) : Z := Z.land x mask32.
Definition add32 (x y : Z) : Z := w32 (x + y).
Definition rotr (n x : Z) : Z :=
  Z.lor (Z.shiftr x n) (w32 (Z.shiftl x (32 - n))).
Definition shr (n x : Z) : Z := Z.shiftr x n.
Definition not32 (x : Z) : Z := Z.lxor x mask32.

Definition Ch (x y z : Z) := Z.lxor (Z.land x y) (Z.land (not32 x) z).
Definition Maj (x y z : Z) :=
  Z.lxor (Z.lxor (Z.land x y) (Z.land x z)) (Z.land y z).
Definition bsig0 x := Z.lxor (Z.lxor (rotr 2 x) (rotr 13 x)) (rotr 22 x).
Definition bsig1 x := Z.lxor (Z.lxor (rotr 6 x) (rotr 11 x)) (rotr 25 x).
Definition ssig0 x := Z.lxor (Z.lxor (rotr 7 x) (rotr 18 x)) (shr 3 x).
Definition ssig1 x := Z.lxor (Z.lxor (rotr 17 x) (rotr 19 x)) (shr 10 x).

(** The 64 round constants and the initial state, in decimal. *)
Definition K : list Z :=
  [ 1116352408; 1899447441; 3049323471; 3921009573;
    961987163; 1508970993; 2453635748; 2870763221;
    3624381080; 310598401; 607225278; 1426881987;
    1925078388; 2162078206; 2614888103; 3248222580;
    3835390401; 4022224774; 264347078; 604807628;
    770255983; 1249150122; 1555081692; 1996064986;
    2554220882; 2821834349; 2952996808; 3210313671;
    3336571891; 3584528711; 113926993; 338241895;
    666307205; 773529912; 1294757372; 1396182291;
    1695183700; 1986661051; 2177026350; 2456956037;
    2730485921; 2820302411; 3259730800; 3345764771;
    3516065817; 3600352804; 4094571909; 275423344;
    430227734; 506948616; 659060556; 883997877;
    958139571; 1322822218; 1537002063; 1747873779;
    1955562222; 2024104815; 2227730452; 2361852424;
    2428436474; 2756734187; 3204031479; 3329325298 ].

Definition H0 : list Z :=
  [ 1779033703; 3144134277; 1013904242; 2773480762;
    1359893119; 2600822924; 528734635; 1541459225 ].

(** Big-endian bytes of a number, [n] of them. *)
Fixpoint be_bytes (n : nat) (x : Z) : list Z :=
  match n with
  | O => []
  | S n' => Z.land (Z.shiftr x (8 * Z.of_nat n')) 255 :: be_bytes n' x
  end.

(** Padding: a 1 bit, zeros up to 56 modulo 64, the bit length on 8
    bytes. *)
Definition pad (msg : list Z) : list Z :=
  let len := Z.of_nat (List.length msg) in
  let zeros := Z.to_nat ((55 - len) mod 64) in
  msg ++ [128] ++ repeat 0 zeros ++ be_bytes 8 (8 * len).

Fixpoint words (fuel : nat) (bs : list Z) : list Z :=
  match fuel, bs with
  | S f, b0 :: b1 :: b2 :: b3 :: rest =>
      (b0 * 16777216 + b1 * 65536 + b2 * 256 + b3) :: words f rest
  | _, _ => []
  end.

(** The message schedule, kept as a window of the last 16 words. *)
Definition next_word (win : list Z) : Z :=
  add32 (add32 (ssig1 (nth 14 win 0)) (nth 9 win 0))
        (add32 (ssig0 (nth 1 win 0)) (nth 0 win 0)).

Fixpoint schedule (n : nat) (win : list Z) : list Z :=
  match n with
  | O => []
  | S n' => let x := next_word win in
            x :: schedule n' (tl win ++ [x])
  end.

Definition round (st : list Z) (kw : Z * Z) : list Z :=
  match st with
  | [a; b; c; d; e; f; g; h] =>
      let t1 := add32 (add32 (add32 h (bsig1 e)) (Ch e f g))
                      (add32 (fst kw) (snd kw)) in
      let t2 := add32 (bsig0 a) (Maj a b c) in
      [add32 t1 t2; a; b; c; add32 d t1; e; f; g]
  | _ => st
  end.

Fixpoint add_state (s t : list Z) : list Z :=
  match s, t with
  | x :: s', y :: t' => add32 x y :: add_state s' t'
  | _, _ => []
  end.

Definition compress (st : list Z) (block : list Z) : list Z :=
  let w16 := words 16 block in
  let w := w16 ++ schedule 48 w16 in
  add_state st (fold_left round (combine K w) st).

Fixpoint blocks (fuel : nat) (st : list Z) (bs : list Z) : list Z :=
  match fuel with
  | O => st
  | S f =>
      match bs with
      | [] => st
      | _ => blocks f (compress st (firstn 64 bs)) (skipn 64 bs)
      end
  end.

(** [sha256(msg).digest()]. *)
Definition digest (msg : bytes) : bytes :=
  let p := pad (map byte_val msg) in
  let st := blocks (List.length p) H0 p in
  map byte_of_Z (flat_map (be_bytes 4) st).

End Sha256.

(* ================================================================== *)
(** ** HMAC, as [hmac.new(key, msg, sha256)] computes it *)

Module Hmac.
Import Py.

Definition blocksize : nat := 64.

(** The key block: a key longer than the block is hashed first, then
    the key is padded with zero bytes ([key.ljust(blocksize, b'\0')]). *)
Definition key_block (key : bytes) : bytes :=
  let k := if (blocksize <? List.length key)%nat
           then Sha256.digest key else key in
  k ++ repeat x00 (blocksize - List.length k).

Definition translate (pad : Z) (k : bytes) : bytes :=
  map (fun b => byte_of_Z (Z.lxor (byte_val b) pad)) k.

Definition digest (key msg : bytes) : bytes :=
  let kb := key_block key in
  let inner := Sha256.digest (translate 54 kb ++ msg) in
  Sha256.digest (translate 92 kb ++ inner).

Definition hex_digit (n : Z) : ascii :=
  if n <? 10 then chr (48 + n) else chr (87 + n).

Definition hex_byte (b : byte) : string :=
  let n := byte_val b in
  String (hex_digit (Z.shiftr n 4))
    (String (hex_digit (Z.land n 15)) EmptyString).

(** [bytes.hex()]: two lowercase digits per byte. *)
Fixpoint hex (d : bytes) : string :=
  match d with
  | [] => EmptyString
  | b :: d' => (hex_byte b ++ hex d')%string
  end.

Definition digit_val (c : ascii) : Z :=
  let n := ord c in if n <? 58 then n - 48 else n - 87.

(** Reading a hexadecimal string back, two digits per byte (the
    inverse of [hex], used to show that [hex] loses nothing). *)
Fixpoint unhex (s : string) : bytes :=
  match s with
  | String c1 (String c2 s') =>
      byte_of_Z (16 * digit_val c1 + digit_val c2) :: unhex s'
  | _ => []
  end.

(** [hmac.new(key, msg, sha256).hexdigest()]. *)
Definition hexdigest (key msg : bytes) : string := hex (digest key msg).

End Hmac.

(* ================================================================== *)
(** ** [app/models.py]: the payload schema *)

Module Models.
Import Py.
Local Open Scope string_scope.

(** *** A small regular-expression matcher

    A pattern is a sequence of bounded repetitions of character
    classes, closed by [$].  [re.match] anchors at the start; [$]
    holds at the end of the string and just before a newline that
    ends the string. *)

Definition atom : Type := (ascii -> bool) * nat * nat.

Definition dollar (s : string) : bool :=
  match s with
  | EmptyString => true
  | String c EmptyString => Ascii.eqb c "010"%char
  | _ => false
  end.

(** [cls{min,max}] followed by [k], greedy with backtracking. *)
Fixpoint rep (cls : ascii -> bool) (k : string -> bool)
    (min max : nat) (s : string) : bool :=
  match max with
  | O => Nat.eqb min 0 && k s
  | S max' =>
      match s with
      | String c s' => cls c && rep cls k (Nat.pred min) max' s'
      | EmptyString => false
      end
      || (Nat.eqb min 0 && k s)
  end.

Definition re_match (atoms : list atom) : string -> bool :=
  fold_right (fun (a : atom) k =>
                let '(cls, min, max) := a in rep cls k min max)
             dollar atoms.

Definition in_range (lo hi : ascii) (c : ascii) : bool :=
  ((ord lo <=? ord c) && (ord c <=? ord hi))%Z.

Definition is_char (x : ascii) (c : ascii) : bool := Ascii.eqb c x.

(** [\d] on the characters of the range: the ten ASCII digits. *)
Definition is_digit : ascii -> bool := in_range "0" "9".

(** [E164_REGEX = re.compile(r"^\+[1-9]\d{1,14}$")] with [.match]. *)
Definition E164_REGEX : string -> bool :=
  re_match [ (is_char "+", 1, 1)%nat;
             (in_range "1" "9", 1, 1)%nat;
             (is_digit, 1, 14)%nat ].

(** *** [MessageIn] *)

Record MessageIn := {
  message_id : string;
  from_ : string;
  to : string;
  ts : string;
  text : option string
}.

(** A validator returns the value or raises [ValueError]. *)
Inductive result (A : Type) :=
| Ok (a : A)
| ValueError (msg : string).
Arguments Ok {A} a.
Arguments ValueError {A} msg.

Definition validate_message_id (v : string) : result string :=
  if negb (truthy v) || negb (truthy (strip v))
  then ValueError "message_id must be non-empty"
  else Ok v.

Definition validate_from (v : string) : result string :=
  if negb (E164_REGEX v)
  then ValueError "from must be in E.164 format"
  else Ok v.

Definition validate_to (v : string) : result string :=
  if negb (E164_REGEX v)
  then ValueError "to must be in E.164 format"
  else Ok v.

Definition validate_text (v : option string) : result (option string) :=
  match v with
  | Some s =>
      if (4096 <? String.length s)%nat
      then ValueError "text must be at most 4096 characters"
      else Ok v
  | None => Ok v
  end.

(** What the schema sees of one field in the keyword arguments: the
    field is missing, it holds [None], it holds a string (or a scalar
    that the [str] type turns into this string), or it holds something
    that is not accepted as a string. *)
Inductive field :=
| Missing
| Null
| Str (s : string)
| NotStr.

(** The document as [parse_obj] reads it ([read] below gives this
    reading of a loaded document): keyword arguments, of which only
    the five fields of the class are read, or a document that gives no
    keyword arguments, on which [parse_obj] raises before it reads any
    field. *)
Inductive json :=
| JObject (f_message_id f_from f_to f_ts f_text : field)
| JOther.

Definition error : Type := string * string.

Section Validation.

(** [datetime.fromisoformat] is library code whose grammar depends
    on the interpreter; it is a parameter: [true] when the call
    returns, [false] when it raises. *)
Variable fromisoformat : string -> bool.

Definition validate_ts (v : string) : result string :=
  if negb (endswith_char v "Z")
  then ValueError "ts must be ISO-8601 UTC with Z"
  else if fromisoformat (replace_char v "Z" "+00:00")
  then Ok v
  else ValueError "ts must be ISO-8601 UTC with Z".

(** A required [str] field with its validator. *)
Definition required (name : string) (validator : string -> result string)
    (f : field) : string * list error :=
  match f with
  | Missing => (EmptyString, [(name, "field required")])
  | Null => (EmptyString, [(name, "none is not an allowed value")])
  | NotStr => (EmptyString, [(name, "str type expected")])
  | Str s =>
      match validator s with
      | Ok v => (v, [])
      | ValueError msg => (EmptyString, [(name, msg)])
      end
  end.

(** An [Optional[str]] field with its validator. *)
Definition optional (name : string)
    (validator : option string -> result (option string))
    (f : field) : option string * list error :=
  match f with
  | Missing | Null => (None, [])
  | NotStr => (None, [(name, "str type expected")])
  | Str s =>
      match validator (Some s) with
      | Ok v => (v, [])
      | ValueError msg => (None, [(name, msg)])
      end
  end.

(** [MessageIn.parse_obj]: every field is validated, in the order
    of the class; the errors are collected and any error raises
    [ValidationError]. *)
Definition parse_obj (j : json) : MessageIn + list error :=
  match j with
  | JOther => inr [("__root__", "MessageIn expected dict not other")]
  | JObject f_id f_from f_to f_ts f_text =>
      let '(v_id, e1) := required "message_id" validate_message_id f_id in
      let '(v_from, e2) := required "from" validate_from f_from in
      let '(v_to, e3) := required "to" validate_to f_to in
      let '(v_ts, e4) := required "ts" validate_ts f_ts in
      let '(v_text, e5) := optional "text" validate_text f_text in
      match (e1 ++ e2 ++ e3 ++ e4 ++ e5)%list with
      | [] => inl {| message_id := v_id; from_ := v_from; to := v_to;
                     ts := v_ts; text := v_text |}
      | errs => inr errs
      end
  end.

(** The errors that [parse_obj] collects on the five fields. *)
Definition errors_of (a b c d e : field) : list error :=
  (snd (required "message_id" validate_message_id a)
   ++ snd (required "from" validate_from b)
   ++ snd (required "to" validate_to c)
   ++ snd (required "ts" validate_ts d)
   ++ snd (optional "text" validate_text e))%list.

End Validation.

(** *** The document that [parse_obj] is given *)

(** A value that [json.loads] returns.  A number comes with the text
    that [str] gives for it; a dict comes with its members in the order
    of the document, where a later member replaces an earlier one of
    the same key. *)
#[warnings="-register-all"]
Inductive value :=
| PyNone
| PyBool (b : bool)
| PyNumber (str : string)
| PyStr (s : string)
| PyList (items : list value)
| PyDict (members : list (string * value)).

(** [d.get(key)] on the members of a dict: the last member of the key. *)
Fixpoint get (key : string) (members : list (string * value))
    : option value :=
  match members with
  | [] => None
  | (k, v) :: rest =>
      match get key rest with
      | Some v' => Some v'
      | None => if String.eqb k key then Some v else None
      end
  end.

(** The keys of a dict in the order of their insertion. *)
Fixpoint keys (seen : list string) (members : list (string * value))
    : list string :=
  match members with
  | [] => []
  | (k, _) :: rest =>
      if existsb (String.eqb k) seen then keys seen rest
      else k :: keys (k :: seen) rest
  end.

(** One element of the sequence that [dict(obj)] is built from: it must
    be a sequence of two elements.  A list of two values is one, a
    string of two characters is one, and a dict of two keys is one (it
    gives its keys). *)
Definition item_pair (x : value) : option (value * value) :=
  match x with
  | PyList [k; v] => Some (k, v)
  | PyStr (String a (String b EmptyString)) =>
      Some (PyStr (String a EmptyString), PyStr (String b EmptyString))
  | PyDict members =>
      match keys [] members with
      | [k1; k2] => Some (PyStr k1, PyStr k2)
      | _ => None
      end
  | _ => None
  end.

(** A list and a dict cannot be the key of a dict. *)
Definition hashable (k : value) : bool :=
  match k with
  | PyList _ | PyDict _ => false
  | _ => true
  end.

Fixpoint update_sequence (items : list value)
    : option (list (value * value)) :=
  match items with
  | [] => Some []
  | x :: rest =>
      match item_pair x with
      | Some (k, v) =>
          if hashable k
          then option_map (cons (k, v)) (update_sequence rest)
          else None
      | None => None
      end
  end.

(** [obj] if it is a dict, and [dict(obj)] otherwise; [None] when
    [dict] raises [TypeError] or [ValueError], which [parse_obj] turns
    into a [ValidationError].  Of the strings only the empty one is a
    sequence of pairs. *)
Definition dict (obj : value) : option (list (value * value)) :=
  match obj with
  | PyDict members => Some (map (fun e => (PyStr (fst e), snd e)) members)
  | PyList items => update_sequence items
  | PyStr EmptyString => Some []
  | _ => None
  end.

(** [cls( **obj)]: every key must be a string, and none may be the name
    of the first parameter of [__init__]; [None] when the call raises
    [TypeError]. *)
Fixpoint keywords (d : list (value * value))
    : option (list (string * value)) :=
  match d with
  | [] => Some []
  | (PyStr k, v) :: rest =>
      if String.eqb k "__pydantic_self__" then None
      else option_map (cons (k, v)) (keywords rest)
  | _ => None
  end.

(** [str_validator]: a string is taken as it is, a number and a
    boolean are turned into a string with [str]. *)
Definition str_validator (v : value) : option string :=
  match v with
  | PyStr s => Some s
  | PyNumber str => Some str
  | PyBool true => Some "True"
  | PyBool false => Some "False"
  | _ => None
  end.

Definition field_of (input : option value) : field :=
  match input with
  | None => Missing
  | Some PyNone => Null
  | Some v =>
      match str_validator v with
      | Some s => Str s
      | None => NotStr
      end
  end.

(** The value given for a field: the one under its alias and, with
    [allow_population_by_field_name], the one under its name when the
    alias is not a key. *)
Definition input_value (alias name : string)
    (kwargs : list (string * value)) : option value :=
  match get alias kwargs with
  | Some v => Some v
  | None => get name kwargs
  end.

(** The keyword arguments that a document gives, if any. *)
Definition kwargs_of (obj : value) : option (list (string * value)) :=
  match dict obj with
  | Some d => keywords d
  | None => None
  end.

(** The reading of a loaded document. *)
Definition read (obj : value) : json :=
  match kwargs_of obj with
  | Some kwargs =>
      JObject (field_of (get "message_id" kwargs))
              (field_of (input_value "from" "from_" kwargs))
              (field_of (get "to" kwargs))
              (field_of (get "ts" kwargs))
              (field_of (get "text" kwargs))
  | None => JOther
  end.

(** A reader of the fixed-width profile [YYYY-MM-DD?HH:MM:SS+00:00]
    (separator [T] or a space, days up to 28 so that every month has
    them), which every version of [fromisoformat] accepts; it stands for
    [fromisoformat] when the validators are run on examples. *)
Definition two_digits (a b : ascii) (lo hi : Z) : bool :=
  is_digit a && is_digit b &&
  let n := ((ord a - 48) * 10 + (ord b - 48))%Z in
  ((lo <=? n) && (n <=? hi))%Z.

Definition iso_profile (s : string) : bool :=
  match list_ascii_of_string s with
  | [y1; y2; y3; y4; d1; m1; m2; d2; a1; a2; sep;
     h1; h2; c1; n1; n2; c2; s1; s2; p; z1; z2; c3; z3; z4] =>
      is_digit y1 && is_digit y2 && is_digit y3 && is_digit y4
      && negb (String.eqb (string_of_list_ascii [y1; y2; y3; y4]) "0000")
      && is_char "-" d1 && two_digits m1 m2 1 12
      && is_char "-" d2 && two_digits a1 a2 1 28
      && (is_char "T" sep || is_char " " sep)
      && two_digits h1 h2 0 23 && is_char ":" c1
      && two_digits n1 n2 0 59 && is_char ":" c2
      && two_digits s1 s2 0 59
      && is_char "+" p && two_digits z1 z2 0 0 && is_char ":" c3
      && two_digits z3 z4 0 0
  | _ => false
  end%char.

End Models.

(* ================================================================== *)
(** ** [app/storage.py]: the message store *)

Module Storage.
Import Py.
Local Open Scope string_scope.

(** One row of the table [messages]; [text] may be NULL. *)
Record row := {
  message_id : string;
  from_msisdn : string;
  to_msisdn : string;
  ts : string;
  text : option string;
  created_at : string
}.

(** The table, in rowid order.  [init_db] creates it empty. *)
Definition table := list row.

Definition init_db : table := [].

(** The PRIMARY KEY constraint: no two rows share a [message_id]. *)
Definition unique_ids (db : table) : Prop :=
  NoDup (map message_id db).

(** [insert_message_idempotent]: the INSERT raises [IntegrityError]
    when the primary key [message_id] is already present, which the
    function turns into [False]; otherwise the row is appended and
    the function returns [True].  [now] is [datetime('now')]. *)
Definition insert_message_idempotent (now : string)
    (msg : Models.MessageIn) (db : table) : table * bool :=
  if existsb (fun r => String.eqb r.(message_id) msg.(Models.message_id)) db
  then (db, false)
  else (db ++ [ {| message_id := msg.(Models.message_id);
                   from_msisdn := msg.(Models.from_);
                   to_msisdn := msg.(Models.to);
                   ts := msg.(Models.ts);
                   text := msg.(Models.text);
                   created_at := now |} ], true)%list.

(** The stores that the service can build: the empty table and what
    inserts make of it. *)
Inductive reachable : table -> Prop :=
| reach_init : reachable init_db
| reach_insert now msg db :
    reachable db ->
    reachable (fst (insert_message_idempotent now msg db)).

(** *** The SQL fragment of the queries *)

(** SQLite's [LIKE] folds the case of the 26 ASCII letters only. *)
Definition lower (c : ascii) : ascii :=
  let n := ord c in
  if ((65 <=? n) && (n <=? 90))%Z then chr (n + 32) else c.

(** The engine reads both operands of [LIKE] as C strings: what
    follows the first NUL character is not looked at. *)
Fixpoint c_str (s : string) : string :=
  match s with
  | EmptyString => EmptyString
  | String c s' =>
      if Ascii.eqb c "000" then EmptyString else String c (c_str s')
  end.

(** The comparison of [LIKE] with no ESCAPE: [%] stands for any run of
    characters, [_] for any one character, any other character for
    itself up to the case of ASCII letters. *)
Fixpoint pattern_compare (p s : string) : bool :=
  match p with
  | EmptyString => match s with EmptyString => true | _ => false end
  | String c p' =>
      if Ascii.eqb c "%" then
        (fix any (s : string) : bool :=
           pattern_compare p' s ||
           match s with
           | EmptyString => false
           | String _ s' => any s'
           end) s
      else
        match s with
        | EmptyString => false
        | String d s' =>
            (Ascii.eqb c "_" || Ascii.eqb (lower c) (lower d))
            && pattern_compare p' s'
        end
  end.

(** [s LIKE p], for a pattern within the length that the engine
    accepts (see [like_too_complex] below for the longer ones). *)
Definition like (p s : string) : bool :=
  pattern_compare (c_str p) (c_str s).

(** A clause of the WHERE part together with its bound parameter. *)
Inductive clause :=
| from_msisdn_eq (param : string)   (* from_msisdn = ? *)
| ts_ge (param : string)            (* ts >= ?         *)
| text_like (param : string).       (* text LIKE ?     *)

(** The value of a clause on a row: [None] is SQL's NULL. *)
Definition eval_clause (c : clause) (r : row) : option bool :=
  match c with
  | from_msisdn_eq p => Some (String.eqb r.(from_msisdn) p)
  | ts_ge p => Some (String.leb p r.(ts))
  | text_like p =>
      match r.(text) with
      | Some t => Some (like p t)
      | None => None
      end
  end.

(** Three-valued AND. *)
Definition sql_and (a b : option bool) : option bool :=
  match a, b with
  | Some false, _ | _, Some false => Some false
  | Some true, Some true => Some true
  | _, _ => None
  end.

(** A row is selected when the conjunction of the clauses is true;
    with no clause there is no WHERE part. *)
Definition where_sql (where_clauses : list clause) (r : row) : bool :=
  match fold_right (fun c acc => sql_and (eval_clause c r) acc)
                   (Some true) where_clauses with
  | Some true => true
  | _ => false
  end.

(** [ORDER BY]: a stable insertion sort on a comparison. *)
Fixpoint insert_sorted {A} (leb : A -> A -> bool) (x : A) (l : list A)
    : list A :=
  match l with
  | [] => [x]
  | y :: l' => if leb x y then x :: l else y :: insert_sorted leb x l'
  end.

Definition order_by {A} (leb : A -> A -> bool) (l : list A) : list A :=
  fold_right (insert_sorted leb) [] l.

(** [ORDER BY ts ASC, message_id ASC]. *)
Definition ts_id_leb (ts1 id1 ts2 id2 : string) : bool :=
  match String.compare ts1 ts2 with
  | Lt => true
  | Eq => String.leb id1 id2
  | Gt => false
  end.

Definition row_leb (r1 r2 : row) : bool :=
  ts_id_leb r1.(ts) r1.(message_id) r2.(ts) r2.(message_id).

(** [LIMIT ? OFFSET ?]: a negative offset is no offset, a negative
    limit is no limit. *)
Definition limit_offset {A} (limit offset : Z) (l : list A) : list A :=
  let rest := skipn (Z.to_nat offset) l in
  if (limit <? 0)%Z then rest else firstn (Z.to_nat limit) rest.

(** *** [list_messages] *)

(** One returned item: the dict with the keys [message_id], [from],
    [to], [ts] and [text]. *)
Record item := {
  item_message_id : string;
  item_from : string;
  item_to : string;
  item_ts : string;
  item_text : option string
}.

Definition item_of_row (r : row) : item :=
  {| item_message_id := r.(message_id);
     item_from := r.(from_msisdn);
     item_to := r.(to_msisdn);
     item_ts := r.(ts);
     item_text := r.(text) |}.

(** The clause of a filter, appended when the filter is truthy. *)
Definition clause_if (mk : string -> clause) (filter : option string)
    : list clause :=
  match filter with
  | Some v => if truthy v then [mk v] else []
  | None => []
  end.

Definition where_clauses (from_filter since q : option string)
    : list clause :=
  (clause_if from_msisdn_eq from_filter
   ++ clause_if ts_ge since
   ++ clause_if (fun q => text_like ("%" ++ q ++ "%")) q)%list.

Definition list_messages (limit offset : Z)
    (from_filter since q : option string) (db : table)
    : list item * Z :=
  let base_query := filter (where_sql (where_clauses from_filter since q)) db in
  let total := Z.of_nat (List.length base_query) in
  let rows := limit_offset limit offset (order_by row_leb base_query) in
  (map item_of_row rows, total).

(** *** When a call of [list_messages] raises *)







(** *** [get_stats] *)

Record stats := {
  total_messages : Z;
  senders_count : Z;
  messages_per_sender : list (string * Z);
  first_message_ts : option string;
  last_message_ts : option string
}.

(** [COUNT(DISTINCT from_msisdn)] ranges over the distinct senders. *)
Definition senders (db : table) : list string :=
  nodup string_dec (map from_msisdn db).

Definition count_of (db : table) (sender : string) : Z :=
  Z.of_nat (List.length
              (filter (fun r => String.eqb r.(from_msisdn) sender) db)).

(** [GROUP BY from_msisdn] gives one pair per sender, in the order of
    the senders; [ORDER BY cnt DESC] then sorts the pairs.  SQL leaves
    the order among equal counts open; the sort used here keeps the
    order of the groups. *)
Definition group_by_sender (db : table) : list (string * Z) :=
  map (fun s => (s, count_of db s)) (order_by String.leb (senders db)).

Definition cnt_desc (a b : string * Z) : bool := (snd b <=? snd a)%Z.

Definition get_stats (db : table) : stats :=
  let first_row := hd_error (order_by row_leb db) in
  let last_row := hd_error (order_by (fun a b => row_leb b a) db) in
  {| total_messages := Z.of_nat (List.length db);
     senders_count := Z.of_nat (List.length (senders db));
     messages_per_sender :=
       firstn 10 (order_by cnt_desc (group_by_sender db));
     first_message_ts := option_map ts first_row;
     last_message_ts := option_map ts last_row |}.

End Storage.

(* ================================================================== *)
(** ** [app/main.py]: the signature verifier and the handlers *)

(** What a call does: it returns a value or an exception leaves it. *)
Inductive exn := TypeError | UnicodeDecodeError.

Inductive outcome (A : Type) :=
| Returned (a : A)
| Raised (e : exn).
Arguments Returned {A} a.
Arguments Raised {A} e.

Module Main.
Import Py.

(** [hmac.compare_digest] on two [str]: both must be ASCII only,
    otherwise it raises [TypeError]; then it is equality. *)
Definition compare_digest (a b : string) : outcome bool :=
  if all_chars is_ascii a && all_chars is_ascii b
  then Returned (String.eqb a b)
  else Raised TypeError.

(** [verify_signature].  The [try] only covers [strip], which does not
    raise on a [str]; [compare_digest] is outside of it. *)
Definition verify_signature (secret : string) (body : bytes)
    (signature_header : string) : outcome bool :=
  let provided_sig := strip signature_header in
  let computed := Hmac.hexdigest (encode_utf8 secret) body in
  compare_digest computed provided_sig.

(** The status codes of [fastapi.status] that the handlers use. *)
Definition HTTP_200_OK : Z := 200.
Definition HTTP_400_BAD_REQUEST : Z := 400.
Definition HTTP_401_UNAUTHORIZED : Z := 401.
Definition HTTP_422_UNPROCESSABLE_ENTITY : Z := 422.
Definition HTTP_500_INTERNAL_SERVER_ERROR : Z := 500.
Definition HTTP_503_SERVICE_UNAVAILABLE : Z := 503.

(** How a handler ends: it raises [HTTPException], it returns a JSON
    response, or an exception that it does not catch leaves it. *)
Inductive response :=
| HTTPException (status_code : Z) (detail : string)
| JSONResponse (status_code : Z) (content : list (string * string))
| Unhandled (e : exn).

(** What [json.loads(raw_body.decode("utf-8"))] does on the body of the
    request: the decoding raises, the parsing raises, or a document is
    returned.  Both are library code; their result comes with the
    request, a returned document in the reading that [parse_obj] makes
    of it ([Models.read]). *)
Inductive loads :=
| DecodeFailed
| JSONDecodeError
| Loaded (body_json : Models.json).

Record Settings := { webhook_secret : string }.

Record request := {
  raw_body : bytes;
  x_signature : string;
  body_loads : loads
}.

Section Handlers.
Variable fromisoformat : string -> bool.
Local Open Scope string_scope.

(** [POST /webhook].  Logging and the metrics counters are left
    out; the store is threaded through. *)
Definition webhook_endpoint (settings : Settings) (now : string)
    (req : request) (db : Storage.table) : response * Storage.table :=
  if negb (truthy settings.(webhook_secret)) then
    (HTTPException HTTP_500_INTERNAL_SERVER_ERROR
       "WEBHOOK_SECRET is not configured", db)
  else
    match verify_signature settings.(webhook_secret) req.(raw_body)
            req.(x_signature) with
    | Raised e => (Unhandled e, db)
    | Returned false =>
        (HTTPException HTTP_401_UNAUTHORIZED "Invalid signature", db)
    | Returned true =>
        match req.(body_loads) with
        | DecodeFailed => (Unhandled UnicodeDecodeError, db)
        | JSONDecodeError =>
            (HTTPException HTTP_400_BAD_REQUEST "Invalid JSON payload", db)
        | Loaded body_json =>
            match Models.parse_obj fromisoformat body_json with
            | inr _ =>
                (HTTPException HTTP_422_UNPROCESSABLE_ENTITY
                   "Invalid payload schema", db)
            | inl payload =>
                let '(db', created) :=
                  Storage.insert_message_idempotent now payload db in
                (JSONResponse HTTP_200_OK [("status", "ok")], db')
            end
        end
    end.

End Handlers.

(** [GET /health/ready], on a store that answers. *)
Definition health_ready (settings : Settings) (db : Storage.table)
    : response :=
  if negb (truthy settings.(webhook_secret)) then
    HTTPException HTTP_503_SERVICE_UNAVAILABLE
      "WEBHOOK_SECRET is not configured"
  else
    let _ := Storage.get_stats db in
    JSONResponse HTTP_200_OK [("status", "ok")]%string.

End Main.

(* ================================================================== *)
(** ** The vocabulary of the specification *)

Module Spec.
Import Py Storage.

(** The items are ordered by [(ts, message_id)]. *)
Definition item_leb (a b : item) : bool :=
  ts_id_leb a.(item_ts) a.(item_message_id) b.(item_ts) b.(item_message_id).

Definition item_le (a b : item) : Prop := item_leb a b = true.

Definition row_le (a b : row) : Prop := row_leb a b = true.

(** A filter is provided when a value is given and is not empty. *)
Definition provided (f : option string) : option string :=
  match f with
  | Some v => if truthy v then Some v else None
  | None => None
  end.

(** [textContains]: the text is present and contains [q], with the case
    of the letters respected. *)
Definition text_contains (q : string) (r : row) : bool :=
  match r.(text) with
  | Some t => contains t q
  | None => false
  end.

(** The same test up to the case of the 26 ASCII letters. *)
Fixpoint fold_case (s : string) : string :=
  match s with
  | EmptyString => EmptyString
  | String c s' => String (lower c) (fold_case s')
  end.

Definition text_contains_nocase (q : string) (r : row) : bool :=
  match r.(text) with
  | Some t => contains (fold_case t) (fold_case q)
  | None => false
  end.

(** A string without NUL character. *)
Definition nul_free (s : string) : bool :=
  all_chars (fun c => negb (Ascii.eqb c "000")) s.

(** A filter value without the two wildcards of LIKE. *)
Definition wildcard_free (q : string) : bool :=
  all_chars (fun c => negb (Ascii.eqb c "%" || Ascii.eqb c "_")) q.

(** The conjunction of the provided filters: exact match on [from],
    inclusive lower bound on [ts], substring of [text]. *)
Definition satisfies (from_filter since q : option string) (r : row) : bool :=
  match provided from_filter with
  | Some f => String.eqb r.(from_msisdn) f
  | None => true
  end
  && match provided since with
     | Some s => String.leb s r.(ts)
     | None => true
     end
  && match provided q with
     | Some x => text_contains x r
     | None => true
     end.

(** The same conjunction with the text filter as the query evaluates
    it: [text LIKE '%q%']. *)
Definition selected (from_filter since q : option string) (r : row) : bool :=
  match provided from_filter with
  | Some f => String.eqb r.(from_msisdn) f
  | None => true
  end
  && match provided since with
     | Some s => String.leb s r.(ts)
     | None => true
     end
  && match provided q with
     | Some x =>
         match r.(text) with
         | Some t => like ("%" ++ x ++ "%") t
         | None => false
         end
     | None => true
     end.

(** The rows that a listing ranges over, before the page is cut:
    selected and ordered. *)
Definition listing (from_filter since q : option string) (db : table)
    : list row :=
  order_by row_leb (filter (where_sql (where_clauses from_filter since q)) db).

(** The message ids of a page. *)
Definition page_ids (page : list item * Z) : list string :=
  map item_message_id (fst page).

(** Ordered by count, largest first. *)
Definition count_ge (a b : string * Z) : Prop := (snd b <= snd a)%Z.

End Spec.

(* ================================================================== *)
(** ** Sample data, after [tests/test_app.py] *)

Module Samples.
Import Storage.
Local Open Scope string_scope.

Definition make_message (mid from_ ts : string) (text : option string)
    : Models.MessageIn :=
  {| Models.message_id := mid;
     Models.from_ := from_;
     Models.to := "+14155550100";
     Models.ts := ts;
     Models.text := text |}.

Definition m1 := make_message "m1" "+919876543210" "2025-01-15T10:00:00Z"
                   (Some "Hello").
Definition m1_again := make_message "m1" "+11111111111"
                         "2025-01-16T08:30:00Z" (Some "Changed").
Definition m2 := make_message "m2" "+11111111111" "2025-01-15T09:00:00Z"
                   (Some "HELLO world").
Definition m3 := make_message "m3" "+11111111111" "2025-01-15T10:00:00Z"
                   None.
Definition m4 := make_message "m4" "+22222222222" "2025-01-15T10:00:00Z"
                   (Some "abc").

Definition insert_all (now : string) (msgs : list Models.MessageIn)
    (db : table) : table :=
  fold_left (fun db m => fst (insert_message_idempotent now m db)) msgs db.

Definition db1 : table := insert_all "2025-01-15 10:00:01" [m1] init_db.
Definition db4 : table :=
  insert_all "2025-01-15 10:00:02" [m2; m3; m4] db1.


Definition payload (mid from_ to ts : string) (text : Models.field)
    : Models.json :=
  Models.JObject (Models.Str mid) (Models.Str from_) (Models.Str to)
    (Models.Str ts) text.

(** [sign] of the tests: the signature of a body under a secret. *)
Definition sign (body : Py.bytes) (secret : string) : string :=
  Hmac.hexdigest (Py.encode_utf8 secret) body.

Definition body : Py.bytes := Py.encode_utf8 "{}".

Definition signed_request (secret : string) (loads : Main.loads)
    : Main.request :=
  {| Main.raw_body := body;
     Main.x_signature := sign body secret;
     Main.body_loads := loads |}.

Definition settings : Main.Settings := {| Main.webhook_secret := "testsecret" |}.
Definition no_secret : Main.Settings := {| Main.webhook_secret := EmptyString |}.

End Samples.

(* ================================================================== *)
(** ** [app/metrics.py]: the counters *)

Module Metrics.

(** The values of the label [result] of [webhook_requests_total]. *)
Inductive result := ok | invalid_signature | invalid_json | invalid_payload.

Definition result_eqb (a b : result) : bool :=
  match a, b with
  | ok, ok | invalid_signature, invalid_signature
  | invalid_json, invalid_json | invalid_payload, invalid_payload => true
  | _, _ => false
  end.

(** The two counters of the registry. *)
Record registry := {
  webhook_requests_total : result -> Z;
  messages_stored_total : Z
}.

(** The registry of a process that starts. *)
Definition fresh : registry :=
  {| webhook_requests_total := fun _ => 0; messages_stored_total := 0 |}.

(** [webhook_requests_total.labels(result=r).inc()]. *)
Definition inc_requests (r : result) (m : registry) : registry :=
  {| webhook_requests_total :=
       fun l => if result_eqb l r then m.(webhook_requests_total) l + 1
                else m.(webhook_requests_total) l;
     messages_stored_total := m.(messages_stored_total) |}.

(** [messages_stored_total.inc()]. *)
Definition inc_stored (m : registry) : registry :=
  {| webhook_requests_total := m.(webhook_requests_total);
     messages_stored_total := m.(messages_stored_total) + 1 |}.

End Metrics.

(* ================================================================== *)
(** ** [app/main.py]: the handlers with the counters, and the listing *)

Module App.
Import Py.
Local Open Scope string_scope.

Section Webhook.
Variable fromisoformat : string -> bool.

(** [POST /webhook] on the store and the registry.  No counter moves
    when the secret is missing or when an exception leaves the handler;
    [ok] counts created and duplicate deliveries alike, and
    [messages_stored_total] only the created ones. *)
Definition webhook_endpoint (settings : Main.Settings) (now : string)
    (req : Main.request) (db : Storage.table) (m : Metrics.registry)
    : Main.response * Storage.table * Metrics.registry :=
  if negb (truthy settings.(Main.webhook_secret)) then
    (Main.HTTPException Main.HTTP_500_INTERNAL_SERVER_ERROR
       "WEBHOOK_SECRET is not configured", db, m)
  else
    match Main.verify_signature settings.(Main.webhook_secret)
            req.(Main.raw_body) req.(Main.x_signature) with
    | Raised e => (Main.Unhandled e, db, m)
    | Returned false =>
        (Main.HTTPException Main.HTTP_401_UNAUTHORIZED "Invalid signature",
         db, Metrics.inc_requests Metrics.invalid_signature m)
    | Returned true =>
        match req.(Main.body_loads) with
        | Main.DecodeFailed => (Main.Unhandled UnicodeDecodeError, db, m)
        | Main.JSONDecodeError =>
            (Main.HTTPException Main.HTTP_400_BAD_REQUEST
               "Invalid JSON payload",
             db, Metrics.inc_requests Metrics.invalid_json m)
        | Main.Loaded body_json =>
            match Models.parse_obj fromisoformat body_json with
            | inr _ =>
                (Main.HTTPException Main.HTTP_422_UNPROCESSABLE_ENTITY
                   "Invalid payload schema",
                 db, Metrics.inc_requests Metrics.invalid_payload m)
            | inl payload =>
                let '(db', created) :=
                  Storage.insert_message_idempotent now payload db in
                let m1 := Metrics.inc_requests Metrics.ok m in
                let m2 := if created then Metrics.inc_stored m1 else m1 in
                (Main.JSONResponse Main.HTTP_200_OK [("status", "ok")],
                 db', m2)
            end
        end
    end.

End Webhook.




End App.

(* ================================================================== *)
(** ** Further vocabulary *)

Module Vocab.
Import Py Storage.

(** The item that the listing shows for a message. *)
Definition item_of_message (msg : Models.MessageIn) : item :=
  {| item_message_id := msg.(Models.message_id);
     item_from := msg.(Models.from_);
     item_to := msg.(Models.to);
     item_ts := msg.(Models.ts);
     item_text := msg.(Models.text) |}.

(** Reading a listing page after page: [n] pages of [L] items from the
    start. *)
Definition walk (L : Z) (n : nat) (from_filter since q : option string)
    (db : table) : list item :=
  flat_map (fun k => fst (list_messages L (Z.of_nat k * L)
                            from_filter since q db))
           (seq 0 n).


(** The string that the [str] type makes of the value given for a
    field, when a value is given and it makes one. *)
Definition given_str (input : option Models.value) : option string :=
  match input with
  | Some v => Models.str_validator v
  | None => None
  end.


(** A lowercase hexadecimal digit. *)
Definition is_lower_hex (c : ascii) : bool :=
  Models.in_range "0" "9" c || Models.in_range "a" "f" c.

(** The result label that stands for an answer of [POST /webhook]: the
    acknowledgement and the three refusals that the handler counts;
    the answer 500 and an exception stand for none. *)
Definition label_of (resp : Main.response) : option Metrics.result :=
  match resp with
  | Main.JSONResponse _ _ => Some Metrics.ok
  | Main.HTTPException code _ =>
      if code =? Main.HTTP_401_UNAUTHORIZED
      then Some Metrics.invalid_signature
      else if code =? Main.HTTP_400_BAD_REQUEST
      then Some Metrics.invalid_json
      else if code =? Main.HTTP_422_UNPROCESSABLE_ENTITY
      then Some Metrics.invalid_payload
      else None
  | Main.Unhandled _ => None
  end.

(** 1 for the label of the answer, 0 for the others. *)
Definition counted (resp : Main.response) (l : Metrics.result) : Z :=
  match label_of resp with
  | Some l' => if Metrics.result_eqb l l' then 1 else 0
  | None => 0
  end.

Section Served.
Variable fromisoformat : string -> bool.

(** A row whose fields pass the validators of [MessageIn]. *)
Definition valid_row (r : row) : Prop :=
  Models.validate_message_id r.(message_id) = Models.Ok r.(message_id)
  /\ Models.validate_from r.(from_msisdn) = Models.Ok r.(from_msisdn)
  /\ Models.validate_to r.(to_msisdn) = Models.Ok r.(to_msisdn)
  /\ Models.validate_ts fromisoformat r.(ts) = Models.Ok r.(ts)
  /\ Models.validate_text r.(text) = Models.Ok r.(text).

(** The states that the service reaches from an empty store and a
    fresh registry by answering webhook requests. *)
Inductive served (settings : Main.Settings)
    : table -> Metrics.registry -> Prop :=
| served_start : served settings init_db Metrics.fresh
| served_request now req db m :
    served settings db m ->
    served settings
      (snd (fst (App.webhook_endpoint fromisoformat settings now req db m)))
      (snd (App.webhook_endpoint fromisoformat settings now req db m)).

End Served.

End Vocab.

(* ================================================================== *)
(** * Properties *)

Example sha256_abc :
  Hmac.hex (Sha256.digest (Py.encode_utf8 "abc")) =
  "ba7816bf8f01cfea414140de5dae2223b00361a396177a9cb410ff61f20015ad"%string.
Proof. vm_compute. reflexivity. Qed.

Example hmac_rfc4231_case2 :
  Hmac.hexdigest (Py.encode_utf8 "Jefe")
                 (Py.encode_utf8 "what do ya want for nothing?") =
  "5bdcc146bf60754e6a042426089575c75a003f089d2739839dec58b964ec3843"%string.
Proof. vm_compute. reflexivity. Qed.

(** ** Stripping *)

Section Strip.
Import Py.
Local Open Scope string_scope.

Lemma all_chars_app p s t :
  all_chars p (s ++ t) = all_chars p s && all_chars p t.
Proof.
  induction s as [|c s IH]; simpl; [reflexivity|].
  now rewrite IH, andb_assoc.
Qed.

Lemma lstrip_spaces l x :
  all_chars is_space l = true -> lstrip (l ++ x) = lstrip x.
Proof.
  induction l as [|c l IH]; simpl; [reflexivity|].
  intros H. apply andb_true_iff in H as [Hc Hl].
  now rewrite Hc, IH.
Qed.

Lemma lstrip_all_spaces r :
  all_chars is_space r = true -> lstrip r = EmptyString.
Proof.
  induction r as [|c r IH]; simpl; [reflexivity|].
  intros H. apply andb_true_iff in H as [Hc Hr].
  now rewrite Hc, IH.
Qed.

Lemma rstrip_all_spaces r :
  all_chars is_space r = true -> rstrip r = EmptyString.
Proof.
  induction r as [|c r IH]; simpl; [reflexivity|].
  intros H. apply andb_true_iff in H as [Hc Hr].
  now rewrite IH, Hc.
Qed.

Lemma rstrip_core h r :
  all_chars non_space h = true -> all_chars is_space r = true ->
  rstrip (h ++ r) = h.
Proof.
  intros Hh Hr. induction h as [|c h IH]; simpl.
  - now apply rstrip_all_spaces.
  - simpl in Hh. apply andb_true_iff in Hh as [Hc Hh].
    rewrite (IH Hh). unfold non_space in Hc.
    apply negb_true_iff in Hc. rewrite Hc. now destruct h.
Qed.

(** Stripping removes the white space around a word without any. *)
Lemma strip_surrounded l h r :
  all_chars is_space l = true -> all_chars non_space h = true ->
  all_chars is_space r = true ->
  strip (l ++ h ++ r) = h.
Proof.
  intros Hl Hh Hr. unfold strip. rewrite lstrip_spaces by assumption.
  destruct h as [|c h].
  - simpl. now rewrite lstrip_all_spaces.
  - simpl in *. apply andb_true_iff in Hh as [Hc Hh].
    pose proof Hc as Hc'. unfold non_space in Hc'.
    apply negb_true_iff in Hc'. rewrite Hc'.
    change (String c (h ++ r)) with (String c h ++ r).
    apply rstrip_core; [simpl; now rewrite Hc, Hh | assumption].
Qed.

Lemma append_empty_right s : s ++ EmptyString = s.
Proof. induction s as [|c s IH]; simpl; [reflexivity | now rewrite IH]. Qed.

Lemma all_chars_lstrip p s :
  all_chars p s = true -> all_chars p (lstrip s) = true.
Proof.
  induction s as [|c s IH]; simpl; [reflexivity|].
  intros H. destruct (is_space c); [|exact H].
  apply andb_true_iff in H as [_ H]. now apply IH.
Qed.

Lemma all_chars_rstrip p s :
  all_chars p s = true -> all_chars p (rstrip s) = true.
Proof.
  induction s as [|c s IH]; simpl; [reflexivity|].
  intros H. apply andb_true_iff in H as [Hc Hs]. specialize (IH Hs).
  destruct (rstrip s) as [|c' r].
  - destruct (is_space c); simpl; [reflexivity | now rewrite Hc].
  - simpl in *. now rewrite Hc, IH.
Qed.

Lemma all_chars_strip p s :
  all_chars p s = true -> all_chars p (strip s) = true.
Proof. intros H. now apply all_chars_rstrip, all_chars_lstrip. Qed.

End Strip.

(** ** Hexadecimal digests *)

Section Hex.
Import Py.
Local Open Scope string_scope.

Lemma hex_byte_plain b : all_chars plain (Hmac.hex_byte b) = true.
Proof. destruct b; vm_compute; reflexivity. Qed.

Lemma hex_plain d : all_chars plain (Hmac.hex d) = true.
Proof.
  induction d as [|b d IH]; [reflexivity|].
  cbn [Hmac.hex]. now rewrite all_chars_app, hex_byte_plain, IH.
Qed.

Lemma all_chars_impl (p q : ascii -> bool) s :
  (forall c, p c = true -> q c = true) ->
  all_chars p s = true -> all_chars q s = true.
Proof.
  intros Hpq. induction s as [|c s IH]; simpl; [reflexivity|].
  intros H. apply andb_true_iff in H as [Hc Hs].
  now rewrite (Hpq _ Hc), IH.
Qed.

Lemma hex_non_space d : all_chars non_space (Hmac.hex d) = true.
Proof.
  apply all_chars_impl with (p := plain); [|apply hex_plain].
  intros c H. now apply andb_true_iff in H as [H _].
Qed.

Lemma hex_ascii d : all_chars is_ascii (Hmac.hex d) = true.
Proof.
  apply all_chars_impl with (p := plain); [|apply hex_plain].
  intros c H. now apply andb_true_iff in H as [_ H].
Qed.

Lemma unhex_hex d : Hmac.unhex (Hmac.hex d) = d.
Proof.
  induction d as [|b d IH]; [reflexivity|].
  change (Hmac.hex (b :: d)) with
    (String (Hmac.hex_digit (Z.shiftr (byte_val b) 4))
       (String (Hmac.hex_digit (Z.land (byte_val b) 15)) (Hmac.hex d))).
  cbn [Hmac.unhex]. rewrite IH. f_equal.
  destruct b; vm_compute; reflexivity.
Qed.

Lemma hex_inj d1 d2 : Hmac.hex d1 = Hmac.hex d2 -> d1 = d2.
Proof.
  intros H. rewrite <- (unhex_hex d1), <- (unhex_hex d2). now rewrite H.
Qed.

End Hex.

(** ** The signature verifier *)

Section Verify.
Import Py Main.
Local Open Scope string_scope.

Lemma compare_digest_hex d sig :
  all_chars is_ascii sig = true ->
  compare_digest (Hmac.hex d) sig = Returned (String.eqb (Hmac.hex d) sig).
Proof.
  intros H. unfold compare_digest. now rewrite hex_ascii, H.
Qed.

(** The key block decides the digest: two secrets with the same key
    block sign alike. *)
Lemma digest_key_block k1 k2 msg :
  Hmac.key_block k1 = Hmac.key_block k2 ->
  Hmac.digest k1 msg = Hmac.digest k2 msg.
Proof. intros H. unfold Hmac.digest. now rewrite H. Qed.

(** A secret shorter than the block and the same secret followed by a
    NUL character have the same key block. *)
Example key_block_trailing_nul :
  Hmac.key_block (encode_utf8 "a") =
  Hmac.key_block (encode_utf8 (String "a" (String "000" EmptyString))).
Proof. reflexivity. Qed.

End Verify.

(** C2 (as amended).  For every secret [s] and body [b], the verifier
    returns true on the hexadecimal HMAC-SHA256 of [b] under [s], also
    when white space surrounds it; on the digest made with another secret
    [s2] it returns false whenever the two digests differ; and on any
    ASCII header that, once stripped, is not the expected digest it
    returns false. *)
Theorem verify_signature_correct (s : string) (b : Py.bytes) :
  (forall l r,
      Py.all_chars Py.is_space l = true ->
      Py.all_chars Py.is_space r = true ->
      Main.verify_signature s b
        (l ++ Hmac.hexdigest (Py.encode_utf8 s) b ++ r)%string
      = Returned true)
  /\ (forall s2,
      Hmac.digest (Py.encode_utf8 s) b <> Hmac.digest (Py.encode_utf8 s2) b ->
      Main.verify_signature s b (Hmac.hexdigest (Py.encode_utf8 s2) b)
      = Returned false)
  /\ (forall sig,
      Py.all_chars Py.is_ascii sig = true ->
      Py.strip sig <> Hmac.hexdigest (Py.encode_utf8 s) b ->
      Main.verify_signature s b sig = Returned false).
Proof.
  assert (Hstrip : forall d, Py.strip (Hmac.hex d) = Hmac.hex d).
  { intros d.
    pose proof (strip_surrounded EmptyString (Hmac.hex d) EmptyString
                  eq_refl (hex_non_space d) eq_refl) as H.
    simpl in H. now rewrite append_empty_right in H. }
  repeat split.
  - intros l r Hl Hr. unfold Main.verify_signature, Hmac.hexdigest.
    rewrite strip_surrounded by (auto using hex_non_space).
    rewrite compare_digest_hex by apply hex_ascii.
    now rewrite String.eqb_refl.
  - intros s2 Hne. unfold Main.verify_signature, Hmac.hexdigest.
    rewrite Hstrip, compare_digest_hex by apply hex_ascii.
    f_equal. apply String.eqb_neq. intros H. apply Hne.
    now apply hex_inj.
  - intros sig Hascii Hne. unfold Main.verify_signature, Hmac.hexdigest in *.
    assert (Hs : Py.all_chars Py.is_ascii (Py.strip sig) = true).
    { now apply all_chars_strip. }
    rewrite compare_digest_hex by exact Hs.
    f_equal. apply String.eqb_neq. congruence.
Qed.

Lemma verify_signature_correct_witness :
  Main.verify_signature "testsecret" (Py.encode_utf8 "{}")
    (" " ++ Hmac.hexdigest (Py.encode_utf8 "testsecret") (Py.encode_utf8 "{}")
         ++ String "010" EmptyString)%string = Returned true
  /\ Main.verify_signature "testsecret" (Py.encode_utf8 "{}")
       (Hmac.hexdigest (Py.encode_utf8 "wrongsecret") (Py.encode_utf8 "{}"))
     = Returned false
  /\ Main.verify_signature "testsecret" (Py.encode_utf8 "{}") "deadbeef"
     = Returned false.
Proof.
  destruct (verify_signature_correct "testsecret" (Py.encode_utf8 "{}"))
    as (H1 & H2 & H3).
  split; [apply H1; reflexivity | split].
  - apply H2. vm_compute. intros H. discriminate H.
  - apply H3; [reflexivity | vm_compute; intros H; discriminate H].
Defined.

(** C2, as stated, fails: the secret ["a"] and the secret made of ["a"]
    followed by a NUL character are distinct and sign alike, and a header
    with a character outside ASCII makes the verifier raise. *)
Lemma verify_signature_counterexample :
  "a"%string <> String "a" (String "000" EmptyString)
  /\ Main.verify_signature "a" (Py.encode_utf8 "{}")
       (Hmac.hexdigest (Py.encode_utf8 (String "a" (String "000" EmptyString)))
          (Py.encode_utf8 "{}"))
     = Returned true
  /\ Main.verify_signature "a" (Py.encode_utf8 "{}")
       (String "233" EmptyString) = Raised TypeError.
Proof.
  split; [discriminate | split; vm_compute; reflexivity].
Qed.

(** ** The store: idempotent insert *)

Section Insert.
Import Storage.

Lemma existsb_id_false (db : table) (mid : string) :
  (forall m, In m db -> m.(message_id) <> mid) ->
  existsb (fun r => String.eqb r.(message_id) mid) db = false.
Proof.
  intros H. destruct (existsb _ db) eqn:E; [|reflexivity].
  apply existsb_exists in E as (m & Hin & Heq).
  apply String.eqb_eq in Heq. now apply H in Hin.
Qed.

Lemma existsb_id_true (db : table) (mid : string) m :
  In m db -> m.(message_id) = mid ->
  existsb (fun r => String.eqb r.(message_id) mid) db = true.
Proof.
  intros Hin Heq. apply existsb_exists. exists m. split; [assumption|].
  now apply String.eqb_eq.
Qed.

(** An insert keeps the primary key constraint. *)
Lemma insert_unique_ids now msg db :
  unique_ids db -> unique_ids (fst (insert_message_idempotent now msg db)).
Proof.
  unfold unique_ids, insert_message_idempotent. intros Hdb.
  destruct (existsb _ db) eqn:E; simpl; [assumption|].
  rewrite map_app. simpl.
  apply NoDup_rev in Hdb. rewrite <- (rev_involutive (_ ++ _)).
  apply NoDup_rev. rewrite rev_app_distr. simpl. constructor.
  - intros Hin. apply in_rev in Hin. apply in_map_iff in Hin as (m & Hm & Hin).
    assert (Ht : existsb
              (fun r => String.eqb r.(message_id) (Models.message_id msg)) db
            = true) by now apply existsb_id_true with (m := m).
    congruence.
  - assumption.
Qed.

Lemma reachable_unique_ids db : reachable db -> unique_ids db.
Proof.
  induction 1 as [|now msg db _ IH]; [constructor|].
  now apply insert_unique_ids.
Qed.

End Insert.

(** C1.  When the store holds a message with the [message_id] of the
    message being inserted, the insert returns [False] and the store is
    the same after the call as before, so that the stored record keeps
    its from, to, ts, text and created_at; when no stored message has
    this [message_id], the insert returns [True] and the store is the
    old one with exactly the new row added. *)
Theorem insert_message_idempotent_first_write_wins
    (now : string) (msg : Models.MessageIn) (db : Storage.table) :
  (forall m, In m db ->
     Storage.message_id m = Models.message_id msg ->
     Storage.insert_message_idempotent now msg db = (db, false)
     /\ In m (fst (Storage.insert_message_idempotent now msg db)))
  /\ ((forall m, In m db ->
         Storage.message_id m <> Models.message_id msg) ->
      Storage.insert_message_idempotent now msg db =
      (db ++ [ {| Storage.message_id := Models.message_id msg;
                  Storage.from_msisdn := Models.from_ msg;
                  Storage.to_msisdn := Models.to msg;
                  Storage.ts := Models.ts msg;
                  Storage.text := Models.text msg;
                  Storage.created_at := now |} ], true)).
Proof.
  split.
  - intros m Hin Heq. unfold Storage.insert_message_idempotent.
    rewrite (existsb_id_true db _ m Hin Heq). now split.
  - intros Hfresh. unfold Storage.insert_message_idempotent.
    now rewrite (existsb_id_false db _ Hfresh).
Qed.

Lemma insert_message_idempotent_first_write_wins_witness :
  Storage.insert_message_idempotent "2025-01-16 08:30:01" Samples.m1_again
    Samples.db1 = (Samples.db1, false)
  /\ Storage.insert_message_idempotent "2025-01-15 10:00:02" Samples.m2
       Samples.db1
     = (Samples.db1 ++
          [ {| Storage.message_id := "m2";
               Storage.from_msisdn := "+11111111111";
               Storage.to_msisdn := "+14155550100";
               Storage.ts := "2025-01-15T09:00:00Z";
               Storage.text := Some "HELLO world"%string;
               Storage.created_at := "2025-01-15 10:00:02" |} ], true).
Proof.
  split.
  - destruct (insert_message_idempotent_first_write_wins
                "2025-01-16 08:30:01" Samples.m1_again Samples.db1) as [H _].
    apply (H {| Storage.message_id := "m1";
                Storage.from_msisdn := "+919876543210";
                Storage.to_msisdn := "+14155550100";
                Storage.ts := "2025-01-15T10:00:00Z";
                Storage.text := Some "Hello"%string;
                Storage.created_at := "2025-01-15 10:00:01" |}).
    + left. reflexivity.
    + reflexivity.
  - destruct (insert_message_idempotent_first_write_wins
                "2025-01-15 10:00:02" Samples.m2 Samples.db1) as [_ H].
    apply H. intros m [<- | []]. discriminate.
Defined.

(** ** The order of strings *)

Section StringOrder.

Lemma ascii_compare_refl c : Ascii.compare c c = Eq.
Proof. unfold Ascii.compare. apply N.compare_refl. Qed.

Lemma ascii_compare_lt_trans a b c :
  Ascii.compare a b = Lt -> Ascii.compare b c = Lt ->
  Ascii.compare a c = Lt.
Proof.
  unfold Ascii.compare. rewrite !N.compare_lt_iff. apply N.lt_trans.
Qed.

Lemma string_compare_refl s : String.compare s s = Eq.
Proof.
  induction s as [|c s IH]; simpl; [reflexivity|].
  now rewrite ascii_compare_refl.
Qed.

Lemma string_compare_lt_trans a :
  forall b c, String.compare a b = Lt -> String.compare b c = Lt ->
              String.compare a c = Lt.
Proof.
  induction a as [|x a IH]; intros [|y b] [|z c]; simpl;
    try discriminate; try reflexivity.
  destruct (Ascii.compare x y) eqn:Hxy; try discriminate;
    destruct (Ascii.compare y z) eqn:Hyz; try discriminate; intros H1 H2.
  - apply Ascii.compare_eq_iff in Hxy, Hyz. subst.
    rewrite ascii_compare_refl. eauto.
  - apply Ascii.compare_eq_iff in Hxy. subst. now rewrite Hyz.
  - apply Ascii.compare_eq_iff in Hyz. subst. now rewrite Hxy.
  - now rewrite (ascii_compare_lt_trans x y z).
Qed.

Lemma string_compare_gt_lt a b :
  String.compare a b = Gt <-> String.compare b a = Lt.
Proof.
  rewrite (String.compare_antisym b a).
  destruct (String.compare a b); simpl; split; congruence.
Qed.

Lemma string_leb_iff a b :
  String.leb a b = true <-> String.compare a b = Lt \/ a = b.
Proof.
  unfold String.leb. destruct (String.compare a b) eqn:H; split;
    try (intros; congruence); auto.
  - right. now apply String.compare_eq_iff.
  - intros [H1 | ->]; [discriminate|].
    now rewrite string_compare_refl in H.
Qed.

Lemma string_leb_trans a b c :
  String.leb a b = true -> String.leb b c = true -> String.leb a c = true.
Proof.
  rewrite !string_leb_iff. intros [H1 | ->] [H2 | ->]; auto.
  left. eapply string_compare_lt_trans; eassumption.
Qed.

Lemma string_leb_refl a : String.leb a a = true.
Proof. apply string_leb_iff. now right. Qed.

End StringOrder.

(** ** Sorting *)

Section OrderBy.
Import Storage.
Context {A : Type} (leb : A -> A -> bool).
Hypothesis leb_total : forall a b, leb a b = true \/ leb b a = true.
Hypothesis leb_trans :
  forall a b c, leb a b = true -> leb b c = true -> leb a c = true.

Lemma insert_sorted_perm x l : Permutation (insert_sorted leb x l) (x :: l).
Proof.
  induction l as [|y l IH]; simpl; [reflexivity|].
  destruct (leb x y); [reflexivity|].
  rewrite IH. apply perm_swap.
Qed.

Lemma order_by_perm l : Permutation (order_by leb l) l.
Proof.
  induction l as [|x l IH]; simpl; [constructor|].
  rewrite insert_sorted_perm. now constructor.
Qed.

Lemma insert_sorted_strongly x l :
  StronglySorted (fun a b => leb a b = true) l -> StronglySorted (fun a b => leb a b = true) (insert_sorted leb x l).
Proof.
  induction 1 as [|y l Hs IH Hall]; simpl.
  - repeat constructor.
  - destruct (leb x y) eqn:E.
    + constructor; [now constructor|]. constructor; [exact E|].
      eapply Forall_impl; [|exact Hall]. intros z Hz.
      now apply (leb_trans x y z).
    + constructor; [exact IH|].
      assert (Hyx : leb y x = true) by (destruct (leb_total x y); congruence).
      eapply Permutation_Forall.
      * symmetry. apply insert_sorted_perm.
      * now constructor.
Qed.

Lemma order_by_sorted l : StronglySorted (fun a b => leb a b = true) (order_by leb l).
Proof.
  induction l as [|x l IH]; simpl; [constructor|].
  now apply insert_sorted_strongly.
Qed.

End OrderBy.

Section Sublists.
Context {A : Type} (R : A -> A -> Prop).

Lemma StronglySorted_skipn n l :
  StronglySorted R l -> StronglySorted R (skipn n l).
Proof.
  revert l. induction n as [|n IH]; intros l H; [exact H|].
  destruct l as [|x l]; [constructor|]. simpl.
  apply IH. now inversion H.
Qed.

Lemma Forall_firstn (P : A -> Prop) n l :
  Forall P l -> Forall P (firstn n l).
Proof.
  revert n. induction l as [|x l IH]; intros [|n] H; simpl; try constructor.
  - now inversion H.
  - apply IH. now inversion H.
Qed.

Lemma StronglySorted_firstn n l :
  StronglySorted R l -> StronglySorted R (firstn n l).
Proof.
  revert n. induction l as [|x l IH]; intros [|n] H; simpl; try constructor.
  - apply IH. now inversion H.
  - apply Forall_firstn. now inversion H.
Qed.

Lemma StronglySorted_limit_offset limit offset l :
  StronglySorted R l ->
  StronglySorted R (Storage.limit_offset limit offset l).
Proof.
  intros H. unfold Storage.limit_offset.
  destruct (limit <? 0); [|apply StronglySorted_firstn];
    now apply StronglySorted_skipn.
Qed.

Lemma StronglySorted_map {B} (f : B -> A) (S : B -> B -> Prop) l :
  (forall a b, S a b -> R (f a) (f b)) ->
  StronglySorted S l -> StronglySorted R (map f l).
Proof.
  intros Hf. induction 1 as [|x l Hs IH Hall]; simpl; constructor.
  - exact IH.
  - apply Forall_map. eapply Forall_impl; [|exact Hall]. auto.
Qed.

End Sublists.

(** ** The order of the listing *)

Section RowOrder.
Import Storage.

Lemma ts_id_leb_iff t1 i1 t2 i2 :
  ts_id_leb t1 i1 t2 i2 = true <->
  String.compare t1 t2 = Lt \/ (t1 = t2 /\ String.leb i1 i2 = true).
Proof.
  unfold ts_id_leb. destruct (String.compare t1 t2) eqn:H; split.
  - intros Hi. right. split; [now apply String.compare_eq_iff | exact Hi].
  - intros [H1 | [_ Hi]]; [discriminate | exact Hi].
  - auto.
  - reflexivity.
  - discriminate.
  - intros [H1 | [-> _]]; [discriminate|].
    now rewrite string_compare_refl in H.
Qed.

Lemma ts_id_leb_total t1 i1 t2 i2 :
  ts_id_leb t1 i1 t2 i2 = true \/ ts_id_leb t2 i2 t1 i1 = true.
Proof.
  rewrite !ts_id_leb_iff. destruct (String.compare t1 t2) eqn:H.
  - apply String.compare_eq_iff in H. subst.
    destruct (String.leb_total i1 i2); auto.
  - auto.
  - apply string_compare_gt_lt in H. auto.
Qed.

Lemma ts_id_leb_trans t1 i1 t2 i2 t3 i3 :
  ts_id_leb t1 i1 t2 i2 = true -> ts_id_leb t2 i2 t3 i3 = true ->
  ts_id_leb t1 i1 t3 i3 = true.
Proof.
  rewrite !ts_id_leb_iff. intros [H1 | [-> H1]] [H2 | [-> H2]]; auto.
  - left. eapply string_compare_lt_trans; eassumption.
  - right. split; [reflexivity|]. eapply string_leb_trans; eassumption.
Qed.

Lemma row_leb_total a b : row_leb a b = true \/ row_leb b a = true.
Proof. apply ts_id_leb_total. Qed.

Lemma row_leb_trans a b c :
  row_leb a b = true -> row_leb b c = true -> row_leb a c = true.
Proof. apply ts_id_leb_trans. Qed.

Lemma rows_sorted (l : list row) :
  StronglySorted Spec.row_le (order_by row_leb l).
Proof. apply order_by_sorted; [apply row_leb_total | apply row_leb_trans]. Qed.

End RowOrder.

(** Two sorted arrangements of the same elements are equal when no two
    distinct elements tie. *)
Lemma sorted_perm_eq {A} (R : A -> A -> Prop) (l1 : list A) :
  forall l2,
  (forall a b, In a l1 -> In b l1 -> R a b -> R b a -> a = b) ->
  StronglySorted R l1 -> StronglySorted R l2 -> Permutation l1 l2 ->
  l1 = l2.
Proof.
  induction l1 as [|x l1 IH]; intros l2 Hanti H1 H2 Hp.
  - apply Permutation_nil in Hp. now subst.
  - destruct l2 as [|y l2];
      [apply Permutation_sym, Permutation_nil in Hp; discriminate|].
    inversion H1 as [|? ? Hs1 Hall1]; subst.
    inversion H2 as [|? ? Hs2 Hall2]; subst.
    assert (Hxy : x = y).
    { assert (Hy : In y (x :: l1))
        by (eapply Permutation_in; [symmetry; exact Hp | now left]).
      assert (Hx : In x (y :: l2))
        by (eapply Permutation_in; [exact Hp | now left]).
      destruct Hy as [Hy | Hy]; [exact Hy|].
      destruct Hx as [Hx | Hx]; [now symmetry|].
      rewrite Forall_forall in Hall1, Hall2.
      apply Hanti; [now left | now right | auto | auto]. }
    subst y. f_equal. apply IH; auto.
    + intros a b Ha Hb. apply Hanti; now right.
    + now apply Permutation_cons_inv in Hp.
Qed.

Section InsertionOrder.
Import Storage.

Lemma unique_ids_inj (db : table) a b :
  unique_ids db -> In a db -> In b db ->
  a.(message_id) = b.(message_id) -> a = b.
Proof.
  unfold unique_ids. induction db as [|r db IH]; simpl; [tauto|].
  intros Hnd Ha Hb Hid. inversion Hnd as [|? ? Hnin Hnd']; subst.
  destruct Ha as [<- | Ha], Hb as [<- | Hb]; auto.
  - exfalso. apply Hnin. rewrite Hid. now apply in_map.
  - exfalso. apply Hnin. rewrite <- Hid. now apply in_map.
Qed.

Lemma row_leb_antisym a b :
  row_leb a b = true -> row_leb b a = true ->
  a.(message_id) = b.(message_id).
Proof.
  unfold row_leb. rewrite !ts_id_leb_iff.
  intros [H1 | [E1 H1]] [H2 | [E2 H2]].
  - apply string_compare_gt_lt in H2. congruence.
  - rewrite E2, string_compare_refl in H1. discriminate.
  - rewrite E1, string_compare_refl in H2. discriminate.
  - now apply String.leb_antisym.
Qed.

Lemma filter_perm {A} (p : A -> bool) l l' :
  Permutation l l' -> Permutation (filter p l) (filter p l').
Proof.
  induction 1 as [| x l l' _ IH | x y l | l l' l'' _ IH1 _ IH2]; simpl.
  - constructor.
  - destruct (p x); [now constructor | exact IH].
  - destruct (p x), (p y); try reflexivity. apply perm_swap.
  - now transitivity (filter p l').
Qed.

(** The listing depends on the rows of the table, not on the order in
    which they were inserted. *)
Lemma listing_insertion_order from_filter since q db db' :
  unique_ids db -> Permutation db db' ->
  Spec.listing from_filter since q db' = Spec.listing from_filter since q db.
Proof.
  intros Hdb Hp. unfold Spec.listing.
  set (p := where_sql (where_clauses from_filter since q)).
  assert (Hin : forall r, In r (order_by row_leb (filter p db')) -> In r db).
  { intros r Hr.
    apply (Permutation_in _ (order_by_perm row_leb (filter p db'))) in Hr.
    apply filter_In in Hr as [Hr _].
    eapply Permutation_in; [symmetry; exact Hp | exact Hr]. }
  apply sorted_perm_eq with (R := Spec.row_le).
  - intros a b Ha Hb Hab Hba.
    apply (unique_ids_inj db); auto. now apply row_leb_antisym.
  - apply rows_sorted.
  - apply rows_sorted.
  - rewrite !order_by_perm. apply filter_perm. now symmetry.
Qed.

End InsertionOrder.

(** C4.  Whatever the store and the filters, the items that
    [list_messages] returns are sorted by [(ts, message_id)] ascending:
    every item is at most every later one; a second call with the same
    filters, limit and offset on the same store returns the same items;
    and, the ids being unique, the same rows inserted in another order
    give the same listing. *)
Theorem list_messages_sorted
    (limit offset : Z) (from_filter since q : option string)
    (db : Storage.table) :
  StronglySorted Spec.item_le
    (fst (Storage.list_messages limit offset from_filter since q db))
  /\ (let first_call :=
        Storage.list_messages limit offset from_filter since q db in
      let second_call :=
        Storage.list_messages limit offset from_filter since q db in
      fst first_call = fst second_call)
  /\ (forall db',
        Storage.unique_ids db -> Permutation db db' ->
        fst (Storage.list_messages limit offset from_filter since q db') =
        fst (Storage.list_messages limit offset from_filter since q db)).
Proof.
  split; [|split; [reflexivity|]].
  - unfold Storage.list_messages. simpl.
    apply StronglySorted_map with (S := Spec.row_le); [now intros a b H|].
    apply StronglySorted_limit_offset, rows_sorted.
  - intros db' Hdb Hp.
    change (map Storage.item_of_row
              (Storage.limit_offset limit offset
                 (Spec.listing from_filter since q db')) =
            map Storage.item_of_row
              (Storage.limit_offset limit offset
                 (Spec.listing from_filter since q db))).
    now rewrite (listing_insertion_order from_filter since q db db' Hdb Hp).
Qed.

Lemma list_messages_sorted_witness :
  fst (Storage.list_messages 50 0 None None None (rev Samples.db4)) =
  fst (Storage.list_messages 50 0 None None None Samples.db4)
  /\ Spec.page_ids (Storage.list_messages 50 0 None None None Samples.db4)
     = ["m2"; "m1"; "m3"; "m4"]%string.
Proof.
  split; [|reflexivity].
  destruct (list_messages_sorted 50 0 None None None Samples.db4)
    as (_ & _ & H).
  apply H; [|apply Permutation_rev].
  unfold Storage.unique_ids. vm_compute.
  repeat constructor; simpl; intuition discriminate.
Defined.

(** ** Pagination *)

Section Pages.
Import Storage.

Lemma firstn_then_firstn {A} n m (l : list A) :
  (firstn n l ++ firstn m (skipn n l) = firstn (n + m) l)%list.
Proof.
  revert l. induction n as [|n IH]; intros l; [reflexivity|].
  destruct l as [|x l]; simpl.
  - now rewrite firstn_nil.
  - now rewrite IH.
Qed.

(** With a limit that is not negative, a page is a slice. *)
Lemma limit_offset_slice {A} limit offset (l : list A) :
  0 <= limit ->
  limit_offset limit offset l =
  firstn (Z.to_nat limit) (skipn (Z.to_nat offset) l).
Proof.
  intros H. unfold limit_offset.
  destruct (limit <? 0) eqn:E; [lia | reflexivity].
Qed.

Lemma limit_offset_pages {A} L O (l : list A) :
  1 <= L -> 0 <= O ->
  (limit_offset L O l ++ limit_offset L (O + L) l
   = limit_offset (2 * L) O l)%list.
Proof.
  intros HL HO. rewrite !limit_offset_slice by lia.
  replace (Z.to_nat (O + L)) with (Z.to_nat L + Z.to_nat O)%nat by lia.
  replace (Z.to_nat (2 * L)) with (Z.to_nat L + Z.to_nat L)%nat by lia.
  rewrite <- skipn_skipn. apply firstn_then_firstn.
Qed.

Lemma NoDup_firstn {A} n (l : list A) : NoDup l -> NoDup (firstn n l).
Proof.
  intros H. rewrite <- (firstn_skipn n l) in H.
  now apply NoDup_app_remove_r in H.
Qed.

Lemma NoDup_skipn {A} n (l : list A) : NoDup l -> NoDup (skipn n l).
Proof.
  intros H. rewrite <- (firstn_skipn n l) in H.
  now apply NoDup_app_remove_l in H.
Qed.

Lemma NoDup_limit_offset {A} limit offset (l : list A) :
  NoDup l -> NoDup (limit_offset limit offset l).
Proof.
  intros H. unfold limit_offset.
  destruct (limit <? 0); [|apply NoDup_firstn]; now apply NoDup_skipn.
Qed.

Lemma NoDup_map_filter {A B} (f : A -> B) (p : A -> bool) l :
  NoDup (map f l) -> NoDup (map f (filter p l)).
Proof.
  induction l as [|x l IH]; simpl; [auto|].
  intros H. inversion H as [|? ? Hnin Hnd]; subst.
  destruct (p x); simpl; [|now apply IH].
  constructor; [|now apply IH].
  intros Hin. apply Hnin. apply in_map_iff in Hin as (y & Hy & Hin).
  apply in_map_iff. exists y. split; [exact Hy|].
  now apply filter_In in Hin as [Hin _].
Qed.

Lemma list_messages_listing limit offset from_filter since q db :
  fst (list_messages limit offset from_filter since q db) =
  map item_of_row (limit_offset limit offset (Spec.listing from_filter since q db)).
Proof. reflexivity. Qed.

Lemma page_ids_listing limit offset from_filter since q db :
  Spec.page_ids (list_messages limit offset from_filter since q db) =
  limit_offset limit offset
    (map message_id (Spec.listing from_filter since q db)).
Proof.
  unfold Spec.page_ids. rewrite list_messages_listing, map_map.
  unfold limit_offset. destruct (limit <? 0).
  - now rewrite skipn_map.
  - now rewrite skipn_map, firstn_map.
Qed.

Lemma listing_unique_ids from_filter since q db :
  unique_ids db -> NoDup (map message_id (Spec.listing from_filter since q db)).
Proof.
  intros H. unfold Spec.listing.
  eapply Permutation_NoDup.
  - apply Permutation_map. symmetry. apply order_by_perm.
  - now apply NoDup_map_filter.
Qed.

End Pages.

(** C7.  On a store that respects the primary key, for every limit
    [L >= 1], every offset [O >= 0] and all filters, the ids of the page
    at offset [O] followed by those of the page at offset [O + L] are the
    ids of the page of limit [2 L] at offset [O]; so the union of the two
    pages is that page, and no id is on both pages. *)
Theorem list_messages_pagination
    (L O : Z) (from_filter since q : option string) (db : Storage.table) :
  Storage.unique_ids db -> 1 <= L -> 0 <= O ->
  let page1 := Spec.page_ids (Storage.list_messages L O from_filter since q db) in
  let page2 :=
    Spec.page_ids (Storage.list_messages L (O + L) from_filter since q db) in
  let both :=
    Spec.page_ids (Storage.list_messages (2 * L) O from_filter since q db) in
  (page1 ++ page2)%list = both
  /\ (forall id, In id both <-> In id page1 \/ In id page2)
  /\ (forall id, In id page1 -> ~ In id page2).
Proof.
  intros Hdb HL HO page1 page2 both.
  assert (Heq : (page1 ++ page2)%list = both).
  { unfold page1, page2, both. rewrite !page_ids_listing.
    now apply limit_offset_pages. }
  split; [exact Heq|]. split.
  - intros id. rewrite <- Heq. apply in_app_iff.
  - assert (Hnd : NoDup (page1 ++ page2)).
    { rewrite Heq. unfold both. rewrite page_ids_listing.
      apply NoDup_limit_offset. now apply listing_unique_ids. }
    intros id H1 H2.
    apply in_split in H1 as (l1 & l2 & E). rewrite E in Hnd.
    rewrite <- app_assoc in Hnd. apply NoDup_remove_2 in Hnd.
    apply Hnd. rewrite !in_app_iff. auto.
Qed.

Lemma list_messages_pagination_witness :
  (Spec.page_ids (Storage.list_messages 1 1 None None None Samples.db4)
   ++ Spec.page_ids (Storage.list_messages 1 2 None None None Samples.db4))%list
  = Spec.page_ids (Storage.list_messages 2 1 None None None Samples.db4)
  /\ Spec.page_ids (Storage.list_messages 2 1 None None None Samples.db4)
     = ["m1"; "m3"]%string.
Proof.
  split; [|reflexivity].
  assert (Hdb : Storage.unique_ids Samples.db4).
  { unfold Storage.unique_ids. vm_compute.
    repeat constructor; simpl; intuition discriminate. }
  destruct (list_messages_pagination 1 1 None None None Samples.db4 Hdb
              ltac:(lia) ltac:(lia)) as [H _].
  exact H.
Defined.

(** ** Filters *)

Section Filters.
Import Py Storage.

(** The WHERE part that [list_messages] builds selects exactly the rows
    on which every provided filter holds, the text filter being
    [text LIKE '%q%']: the clauses are ANDed, and a NULL text makes the
    LIKE clause NULL, which does not select. *)
Lemma where_sql_selected from_filter since q r :
  where_sql (where_clauses from_filter since q) r =
  Spec.selected from_filter since q r.
Proof.
  unfold where_sql, where_clauses, clause_if, Spec.selected, Spec.provided.
  destruct from_filter as [[|c1 f]|], since as [[|c2 s]|], q as [[|c3 x]|];
    cbn [truthy app fold_right eval_clause sql_and];
    repeat match goal with
           | |- context [String.eqb ?a ?b] => destruct (String.eqb a b)
           | |- context [String.leb ?a ?b] => destruct (String.leb a b)
           | |- context [text ?r] => destruct (text r)
           | |- context [like ?a ?b] => destruct (like a b)
           end; reflexivity.
Qed.

Lemma filter_ext_eq {A} (p q : A -> bool) l :
  (forall x, p x = q x) -> filter p l = filter q l.
Proof.
  intros H. induction l as [|x l IH]; simpl; [reflexivity|].
  now rewrite H, IH.
Qed.

(** The total is the number of selected rows, whatever the page. *)
Lemma list_messages_total limit offset from_filter since q db :
  snd (list_messages limit offset from_filter since q db) =
  Z.of_nat (List.length (filter (Spec.selected from_filter since q) db)).
Proof.
  unfold list_messages. simpl. f_equal. f_equal.
  apply filter_ext_eq. intros r. apply where_sql_selected.
Qed.

Lemma list_messages_total_any_page limit offset limit' offset'
    from_filter since q db :
  snd (list_messages limit offset from_filter since q db) =
  snd (list_messages limit' offset' from_filter since q db).
Proof. reflexivity. Qed.

(** Without a text filter the selected rows are the rows that satisfy
    the filters in the sense of the specification. *)
Lemma selected_no_q from_filter since q r :
  Spec.provided q = None ->
  Spec.selected from_filter since q r = Spec.satisfies from_filter since q r.
Proof. intros H. unfold Spec.selected, Spec.satisfies. now rewrite H. Qed.

End Filters.

(** C10.  An empty string given as [from_filter], [since] or [q] is the
    same as no filter: [list_messages] returns the same items and the
    same total as with the filter absent. *)
Theorem list_messages_empty_filter_is_absent
    (limit offset : Z) (from_filter since q : option string)
    (db : Storage.table) :
  Storage.list_messages limit offset (Some EmptyString) since q db
  = Storage.list_messages limit offset None since q db
  /\ Storage.list_messages limit offset from_filter (Some EmptyString) q db
     = Storage.list_messages limit offset from_filter None q db
  /\ Storage.list_messages limit offset from_filter since (Some EmptyString) db
     = Storage.list_messages limit offset from_filter since None db.
Proof. repeat split. Qed.

Example empty_from_filter_lists_all :
  Spec.page_ids
    (Storage.list_messages 50 0 (Some EmptyString) None None Samples.db4)
  = ["m2"; "m1"; "m3"; "m4"]%string.
Proof. reflexivity. Qed.

(** ** The text filter *)

Section Like.
Import Py Storage.
Local Open Scope string_scope.

Lemma c_str_nul_free s : Spec.nul_free s = true -> c_str s = s.
Proof.
  induction s as [|c s IH]; simpl; [reflexivity|].
  intros H. apply andb_true_iff in H as [Hc Hs].
  apply negb_true_iff in Hc. now rewrite Hc, IH.
Qed.

Lemma nul_free_pattern q :
  Spec.nul_free q = true -> Spec.nul_free ("%" ++ q ++ "%") = true.
Proof.
  intros H. unfold Spec.nul_free in *.
  change ("%" ++ q ++ "%") with (String "%" (q ++ "%")).
  cbn [all_chars]. rewrite all_chars_app, H. reflexivity.
Qed.

Lemma like_nul_free p t :
  Spec.nul_free p = true -> Spec.nul_free t = true ->
  like p t = pattern_compare p t.
Proof. intros Hp Ht. unfold like. now rewrite !c_str_nul_free. Qed.

Lemma pattern_percent p s :
  pattern_compare (String "%" p) s =
  pattern_compare p s
  || match s with
     | EmptyString => false
     | String _ s' => pattern_compare (String "%" p) s'
     end.
Proof. destruct s; reflexivity. Qed.

Lemma pattern_char c p d s :
  Ascii.eqb c "%" = false ->
  pattern_compare (String c p) (String d s) =
  (Ascii.eqb c "_" || Ascii.eqb (lower c) (lower d)) && pattern_compare p s.
Proof. intros H. cbn [pattern_compare]. now rewrite H. Qed.

Lemma pattern_any s : pattern_compare "%" s = true.
Proof.
  induction s as [|c s IH]; [reflexivity|].
  rewrite pattern_percent, IH. apply orb_true_r.
Qed.

(** A pattern that ends in [%] matches every text that it starts. *)
Lemma pattern_prefix q : forall t,
  String.prefix q t = true -> pattern_compare (q ++ "%") t = true.
Proof.
  induction q as [|c q IH]; intros t H.
  - apply pattern_any.
  - destruct t as [|d t]; [discriminate|]. simpl in H.
    destruct (ascii_dec c d) as [<- | ]; [|discriminate].
    change (String c q ++ "%") with (String c (q ++ "%")).
    destruct (Ascii.eqb c "%") eqn:E.
    + apply Ascii.eqb_eq in E. subst c.
      rewrite pattern_percent, (pattern_percent (q ++ "%") t), (IH t H).
      now rewrite !orb_true_r.
    + rewrite pattern_char by exact E.
      now rewrite Ascii.eqb_refl, orb_true_r, IH.
Qed.

Lemma pattern_contains q : forall t,
  contains t q = true -> pattern_compare ("%" ++ q ++ "%") t = true.
Proof.
  intros t. change ("%" ++ q ++ "%") with (String "%" (q ++ "%")).
  induction t as [|d t IH]; intros H; rewrite pattern_percent.
  - cbn [contains] in H. rewrite orb_false_r in H.
    now rewrite (pattern_prefix q _ H).
  - cbn [contains] in H. apply orb_true_iff in H as [H | H].
    + now rewrite (pattern_prefix q _ H).
    + rewrite (IH H). apply orb_true_r.
Qed.

(** On values without NUL, the LIKE of the query finds every text that
    contains [q]. *)
Lemma like_contains q t :
  Spec.nul_free q = true -> Spec.nul_free t = true ->
  contains t q = true -> like ("%" ++ q ++ "%") t = true.
Proof.
  intros Hq Ht H. rewrite like_nul_free by auto using nul_free_pattern.
  now apply pattern_contains.
Qed.

(** A row without text is never selected by a text filter. *)
Lemma absent_text_not_selected from_filter since q r :
  Spec.provided q <> None -> r.(text) = None ->
  Spec.selected from_filter since q r = false.
Proof.
  intros Hq Ht. unfold Spec.selected.
  destruct (Spec.provided q); [|congruence].
  rewrite Ht. now rewrite !andb_false_r.
Qed.

(** On values without NUL, every row that satisfies the filters of the
    specification is selected by the query. *)
Lemma satisfies_selected from_filter since q r :
  (forall x, q = Some x -> Spec.nul_free x = true) ->
  (forall t, r.(text) = Some t -> Spec.nul_free t = true) ->
  Spec.satisfies from_filter since q r = true ->
  Spec.selected from_filter since q r = true.
Proof.
  unfold Spec.satisfies, Spec.selected, Spec.text_contains.
  intros Hq Ht H. apply andb_true_iff in H as [H Hc]. rewrite H. simpl.
  destruct (Spec.provided q) as [x|] eqn:P; [|reflexivity].
  assert (Hx : q = Some x).
  { unfold Spec.provided in P. destruct q as [v|]; [|discriminate].
    destruct (truthy v); now inversion P. }
  destruct (text r) as [t|]; [|discriminate].
  apply like_contains; auto.
Qed.

(** The engine stops at a NUL character, in the text and in the
    pattern. *)
Example like_stops_at_nul :
  like "%cd%" (String "a" (String "b" (String "000" "cd"))) = false
  /\ like (String "%" (String "000" "%")) "xyz" = true.
Proof. split; reflexivity. Qed.

End Like.

(** Without wildcards in [q] and without NUL, the LIKE of the query is
    the substring test up to the case of ASCII letters. *)
Section LikeNoCase.
Import Py Storage.
Local Open Scope string_scope.

Lemma pattern_prefix_nocase q : forall t,
  Spec.wildcard_free q = true ->
  pattern_compare (q ++ "%") t
  = String.prefix (Spec.fold_case q) (Spec.fold_case t).
Proof.
  induction q as [|c q IH]; intros t Hq.
  - rewrite pattern_any. now destruct t.
  - cbn [Spec.wildcard_free all_chars] in Hq.
    apply andb_true_iff in Hq as [Hc Hq].
    apply negb_true_iff, orb_false_iff in Hc as [Hc1 Hc2].
    change (String c q ++ "%") with (String c (q ++ "%")).
    destruct t as [|d t]; [cbn [pattern_compare]; now rewrite Hc1|].
    rewrite pattern_char by exact Hc1. rewrite Hc2. cbn [orb Spec.fold_case].
    rewrite (IH t Hq). cbn [String.prefix].
    destruct (ascii_dec (lower c) (lower d)) as [E | E].
    + rewrite E. now rewrite Ascii.eqb_refl.
    + apply Ascii.eqb_neq in E. now rewrite E.
Qed.

Lemma pattern_contains_nocase q : forall t,
  Spec.wildcard_free q = true ->
  pattern_compare ("%" ++ q ++ "%") t
  = contains (Spec.fold_case t) (Spec.fold_case q).
Proof.
  intros t Hq. change ("%" ++ q ++ "%") with (String "%" (q ++ "%")).
  induction t as [|d t IH];
    rewrite pattern_percent, pattern_prefix_nocase by exact Hq.
  - reflexivity.
  - rewrite IH. reflexivity.
Qed.

Lemma selected_nocase from_filter since q r :
  truthy q = true -> Spec.wildcard_free q = true ->
  Spec.nul_free q = true ->
  (forall t, r.(text) = Some t -> Spec.nul_free t = true) ->
  Spec.selected from_filter since (Some q) r =
  Spec.selected from_filter since None r && Spec.text_contains_nocase q r.
Proof.
  intros Hq Hw Hn Ht. unfold Spec.selected, Spec.text_contains_nocase.
  cbn [Spec.provided]. rewrite Hq, andb_true_r.
  destruct (text r) as [t|]; [|reflexivity].
  rewrite like_nul_free by auto using nul_free_pattern.
  now rewrite pattern_contains_nocase.
Qed.

(** What the text filter does on a store and a filter without NUL, for
    a filter without wildcards: the case of ASCII letters is folded. *)
Lemma list_messages_text_filter_nocase limit offset from_filter since q db :
  truthy q = true -> Spec.wildcard_free q = true ->
  Spec.nul_free q = true ->
  (forall r t, In r db -> r.(text) = Some t -> Spec.nul_free t = true) ->
  list_messages limit offset from_filter since (Some q) db =
  (map item_of_row
     (limit_offset limit offset
        (order_by row_leb
           (filter (fun r => Spec.selected from_filter since None r
                             && Spec.text_contains_nocase q r) db))),
   Z.of_nat
     (List.length
        (filter (fun r => Spec.selected from_filter since None r
                          && Spec.text_contains_nocase q r) db))).
Proof.
  intros Hq Hw Hn Hdb.
  assert (Hm : filter (where_sql (where_clauses from_filter since (Some q))) db
               = filter (fun r => Spec.selected from_filter since None r
                                  && Spec.text_contains_nocase q r) db).
  { apply filter_ext_in. intros r Hr.
    rewrite where_sql_selected. apply selected_nocase; auto.
    intros t. now apply Hdb. }
  unfold list_messages. now rewrite Hm.
Qed.

End LikeNoCase.

(** C3, on the code.  With [q = "hello"] the listing returns, and counts
    in the total, the messages whose texts are ["HELLO world"] and
    ["Hello"], though no stored text contains ["hello"]: the text filter
    is the LIKE of the query, which folds the case of ASCII letters. *)
Theorem list_messages_text_filter_folds_case :
  Spec.page_ids
    (Storage.list_messages 50 0 None None (Some "hello"%string) Samples.db4)
  = ["m2"; "m1"]%string
  /\ snd (Storage.list_messages 50 0 None None (Some "hello"%string)
            Samples.db4) = 2
  /\ filter (Spec.text_contains "hello") Samples.db4 = [].
Proof. repeat split. Qed.

(** The wildcards of LIKE are read in [q]: with [q = "_"] every message
    with a text is listed, though no text holds an underscore. *)
Example list_messages_q_underscore :
  Spec.page_ids
    (Storage.list_messages 50 0 None None (Some "_"%string) Samples.db4)
  = ["m2"; "m1"; "m4"]%string
  /\ filter (Spec.text_contains "_") Samples.db4 = [].
Proof. repeat split. Qed.

(** C8, on the code.  With [q = "hello"] the total is 2 although no
    stored record satisfies the text filter, so the total is not the
    number of records that satisfy the provided filters; with no text
    filter it is: for all [from] and [since] filters the total is the
    number of stored records that satisfy their conjunction. *)
Theorem list_messages_total_counts_like :
  snd (Storage.list_messages 50 0 None None (Some "hello"%string) Samples.db4)
  = 2
  /\ List.length
       (filter (Spec.satisfies None None (Some "hello"%string)) Samples.db4)
     = 0%nat
  /\ (forall limit offset from_filter since db,
        snd (Storage.list_messages limit offset from_filter since None db) =
        Z.of_nat
          (List.length (filter (Spec.satisfies from_filter since None) db))).
Proof.
  split; [reflexivity | split; [reflexivity|]].
  intros limit offset from_filter since db. rewrite list_messages_total.
  rewrite (filter_ext_eq (Spec.selected from_filter since None)
             (Spec.satisfies from_filter since None)); [reflexivity|].
  intros r. now apply selected_no_q.
Qed.

(** ** Statistics *)

Section Stats.
Import Storage.

Lemma cnt_desc_total a b : cnt_desc a b = true \/ cnt_desc b a = true.
Proof. unfold cnt_desc. lia. Qed.

Lemma cnt_desc_trans a b c :
  cnt_desc a b = true -> cnt_desc b c = true -> cnt_desc a c = true.
Proof. unfold cnt_desc. lia. Qed.

Lemma StronglySorted_impl {A} (R S : A -> A -> Prop) l :
  (forall a b, R a b -> S a b) ->
  StronglySorted R l -> StronglySorted S l.
Proof.
  intros HRS. induction 1 as [|x l Hs IH Hall]; constructor.
  - exact IH.
  - eapply Forall_impl; [|exact Hall]. auto.
Qed.

Lemma messages_per_sender_sorted db :
  StronglySorted Spec.count_ge (messages_per_sender (get_stats db)).
Proof.
  unfold get_stats. cbn [messages_per_sender].
  apply StronglySorted_firstn.
  apply StronglySorted_impl with (R := fun a b => cnt_desc a b = true).
  - intros a b Hab. unfold Spec.count_ge. unfold cnt_desc in Hab. lia.
  - apply order_by_sorted; [apply cnt_desc_total | apply cnt_desc_trans].
Qed.

End Stats.

(** C9.  On the empty store [get_stats] returns 0 messages, 0 senders,
    no sender entry and no first or last timestamp; on every store
    [messages_per_sender] has at most 10 entries, ordered by count from
    the largest down. *)
Theorem get_stats_empty_and_top_senders :
  Storage.get_stats Storage.init_db =
    {| Storage.total_messages := 0;
       Storage.senders_count := 0;
       Storage.messages_per_sender := [];
       Storage.first_message_ts := None;
       Storage.last_message_ts := None |}
  /\ (forall db,
        (List.length (Storage.messages_per_sender (Storage.get_stats db))
         <= 10)%nat
        /\ StronglySorted Spec.count_ge
             (Storage.messages_per_sender (Storage.get_stats db))).
Proof.
  split; [reflexivity|]. intros db. split.
  - unfold Storage.get_stats. cbn [Storage.messages_per_sender].
    apply firstn_le_length.
  - apply messages_per_sender_sorted.
Qed.

Example get_stats_db4 :
  Storage.get_stats Samples.db4 =
    {| Storage.total_messages := 4;
       Storage.senders_count := 3;
       Storage.messages_per_sender :=
         [("+11111111111", 2); ("+22222222222", 1); ("+919876543210", 1)]%string;
       Storage.first_message_ts := Some "2025-01-15T09:00:00Z"%string;
       Storage.last_message_ts := Some "2025-01-15T10:00:00Z"%string |}.
Proof. reflexivity. Qed.

(** ** The payload schema *)

Section Regex.
Import Py Models.
Local Open Scope string_scope.

(** A bounded repetition matches when the string splits into a run of
    the class, of a length within the bounds, and a rest on which the
    continuation matches. *)
Lemma rep_iff cls k : forall max min s,
  rep cls k min max s = true <->
  exists pre post,
    s = pre ++ post /\ all_chars cls pre = true
    /\ (min <= String.length pre <= max)%nat /\ k post = true.
Proof.
  induction max as [|max IH]; intros min s; cbn [rep].
  - rewrite andb_true_iff, Nat.eqb_eq. split.
    + intros [-> Hk]. exists EmptyString, s. simpl. repeat split; auto.
    + intros (pre & post & -> & _ & [Hmin Hmax] & Hk).
      destruct pre; [|simpl in Hmax; lia]. simpl in *. split; [lia | exact Hk].
  - rewrite orb_true_iff, andb_true_iff, Nat.eqb_eq. split.
    + intros [H | [-> Hk]].
      * destruct s as [|c s]; [discriminate|].
        apply andb_true_iff in H as [Hc H].
        apply IH in H as (pre & post & -> & Hall & Hlen & Hk).
        exists (String c pre), post. simpl. rewrite Hc, Hall.
        repeat split; auto; lia.
      * exists EmptyString, s. simpl. repeat split; auto; lia.
    + intros (pre & post & -> & Hall & [Hmin Hmax] & Hk).
      destruct pre as [|c pre]; simpl in *.
      * right. split; [lia | exact Hk].
      * left. apply andb_true_iff in Hall as [Hc Hall]. rewrite Hc. simpl.
        apply IH. exists pre, post. repeat split; auto; lia.
Qed.

Lemma dollar_iff s :
  dollar s = true <-> s = EmptyString \/ s = String "010" EmptyString.
Proof.
  destruct s as [|c [|d s]]; simpl; split; auto; try discriminate.
  - intros H. apply Ascii.eqb_eq in H. subst. now right.
  - intros [H | H]; [discriminate|]. inversion H. apply Ascii.eqb_refl.
  - intros [H | H]; discriminate.
Qed.

Lemma one_char cls pre :
  all_chars cls pre = true -> (1 <= String.length pre <= 1)%nat ->
  exists c, pre = String c EmptyString /\ cls c = true.
Proof.
  destruct pre as [|c [|d pre]]; simpl; intros H Hlen; try lia.
  exists c. split; [reflexivity|]. now apply andb_true_iff in H as [H _].
Qed.

(** What [E164_REGEX.match] accepts: a plus sign, a digit from 1 to 9,
    then 1 to 14 digits, and nothing more except one newline at the
    very end. *)
Lemma E164_REGEX_iff v :
  E164_REGEX v = true <->
  exists d ds post,
    v = String "+" (String d (ds ++ post))
    /\ in_range "1" "9" d = true
    /\ all_chars is_digit ds = true
    /\ (1 <= String.length ds <= 14)%nat
    /\ (post = EmptyString \/ post = String "010" EmptyString).
Proof.
  unfold E164_REGEX, re_match. cbn [fold_right]. rewrite rep_iff. split.
  - intros (p1 & r1 & -> & H1 & L1 & H).
    apply rep_iff in H as (p2 & r2 & -> & H2 & L2 & H).
    apply rep_iff in H as (ds & post & -> & H3 & L3 & H).
    apply one_char in H1 as (c1 & -> & Hc1); [|exact L1].
    apply one_char in H2 as (d & -> & Hd); [|exact L2].
    apply Ascii.eqb_eq in Hc1. subst c1.
    exists d, ds, post. simpl. rewrite dollar_iff in H. auto.
  - intros (d & ds & post & -> & Hd & Hds & Hlen & Hpost).
    exists (String "+" EmptyString), (String d (ds ++ post)).
    split; [reflexivity|]. split; [reflexivity|].
    split; [simpl; lia|].
    apply rep_iff. exists (String d EmptyString), (ds ++ post).
    split; [reflexivity|]. split; [cbn [all_chars]; now rewrite Hd|].
    split; [simpl; lia|].
    apply rep_iff. exists ds, post. rewrite dollar_iff. auto.
Qed.

End Regex.

Example E164_rejects_12345 : Models.E164_REGEX "12345" = false.
Proof. reflexivity. Qed.

Example E164_accepts_number : Models.E164_REGEX "+919876543210" = true.
Proof. reflexivity. Qed.

Example E164_rejects_16_digits : Models.E164_REGEX "+1234567890123456" = false.
Proof. reflexivity. Qed.

(** [$] also holds before a newline that ends the value. *)
Example E164_accepts_trailing_newline :
  Models.E164_REGEX (String "+" (String "1" (String "2" (String "010" EmptyString))))
  = true.
Proof. reflexivity. Qed.

Section Schema.
Import Py Models.
Local Open Scope string_scope.
Variable fromisoformat : string -> bool.

Lemma parse_obj_errors a b c d e :
  parse_obj fromisoformat (JObject a b c d e) =
  match errors_of fromisoformat a b c d e with
  | [] => inl {| message_id := fst (required "message_id" validate_message_id a);
                 from_ := fst (required "from" validate_from b);
                 to := fst (required "to" validate_to c);
                 ts := fst (required "ts" (validate_ts fromisoformat) d);
                 text := fst (optional "text" validate_text e) |}
  | errs => inr errs
  end.
Proof.
  unfold parse_obj, errors_of.
  destruct (required "message_id" validate_message_id a),
    (required "from" validate_from b), (required "to" validate_to c),
    (required "ts" (validate_ts fromisoformat) d),
    (optional "text" validate_text e).
  reflexivity.
Qed.



Lemma required_ok name validator v :
  validator v = Ok v -> required name validator (Str v) = (v, []).
Proof. intros H. unfold required. now rewrite H. Qed.






Lemma validate_text_short v :
  (String.length v <= 4096)%nat -> validate_text (Some v) = Ok (Some v).
Proof.
  intros H. unfold validate_text.
  destruct (4096 <? String.length v)%nat eqn:E; [|reflexivity].
  apply Nat.ltb_lt in E. lia.
Qed.


End Schema.


(** ** The ingestion endpoint *)

(** C5, on the code.  With no configured secret the ingestion endpoint
    answers every request with the internal-server-error status 500 and
    leaves the store as it is; the readiness probe answers the same
    settings with the service-unavailable status 503, and the two
    statuses differ. *)
Theorem webhook_endpoint_no_secret_is_500 :
  (forall fromisoformat now req db,
     Main.webhook_endpoint fromisoformat
       {| Main.webhook_secret := EmptyString |} now req db
     = (Main.HTTPException 500 "WEBHOOK_SECRET is not configured", db))
  /\ (forall db,
        Main.health_ready {| Main.webhook_secret := EmptyString |} db
        = Main.HTTPException 503 "WEBHOOK_SECRET is not configured")
  /\ Main.HTTP_500_INTERNAL_SERVER_ERROR <> Main.HTTP_503_SERVICE_UNAVAILABLE.
Proof.
  split; [|split].
  - intros fromisoformat now req db. reflexivity.
  - intros db. reflexivity.
  - discriminate.
Qed.

(** With a configured secret, a request whose signature header holds a
    character that is not ASCII ends in neither of the four failure
    statuses: [compare_digest] raises and no handler catches it. *)
Example webhook_endpoint_header_not_ascii :
  Main.webhook_endpoint Models.iso_profile Samples.settings
    "2025-01-15 10:00:03"
    {| Main.raw_body := Samples.body;
       Main.x_signature := String (Py.chr 233) EmptyString;
       Main.body_loads :=
         Main.Loaded
           (Models.JObject Models.Missing Models.Missing Models.Missing
              Models.Missing Models.Missing) |}
    Samples.db1
  = (Main.Unhandled TypeError, Samples.db1).
Proof. vm_compute. reflexivity. Qed.

(** The scenario of the specification: the same signed message posted
    twice is acknowledged twice and stored once. *)
Example webhook_endpoint_scenario :
  let req :=
    Samples.signed_request "testsecret"
      (Main.Loaded
         (Samples.payload "m1" "+919876543210" "+14155550100"
            "2025-01-15T10:00:00Z" (Models.Str "Hello"))) in
  let '(r1, db1) :=
    Main.webhook_endpoint Models.iso_profile Samples.settings
      "2025-01-15 10:00:01" req Storage.init_db in
  let '(r2, db2) :=
    Main.webhook_endpoint Models.iso_profile Samples.settings
      "2025-01-15 10:00:09" req db1 in
  r1 = Main.JSONResponse 200 [("status", "ok")]%string
  /\ r2 = r1
  /\ db1 = Samples.db1 /\ db2 = db1
  /\ Storage.total_messages (Storage.get_stats db2) = 1
  /\ Storage.senders_count (Storage.get_stats db2) = 1
  /\ Spec.page_ids
       (Storage.list_messages 50 0 (Some "+919876543210"%string) None None db2)
     = ["m1"]%string.
Proof. vm_compute. repeat split. Qed.

Example encode_utf8_two_bytes :
  Py.encode_utf8 (String "233" EmptyString) = [xc3; xa9].
Proof. reflexivity. Qed.

(* ================================================================== *)
(** * Further properties *)

(** ** The listing: what a page holds *)

Section Listing.
Import Storage.

Lemma In_firstn_list {A} n (l : list A) x : In x (firstn n l) -> In x l.
Proof.
  intros H. rewrite <- (firstn_skipn n l). apply in_app_iff. now left.
Qed.

Lemma In_skipn_list {A} n (l : list A) x : In x (skipn n l) -> In x l.
Proof.
  intros H. rewrite <- (firstn_skipn n l). apply in_app_iff. now right.
Qed.

Lemma In_limit_offset {A} limit offset (l : list A) x :
  In x (limit_offset limit offset l) -> In x l.
Proof.
  unfold limit_offset. intros H.
  destruct (limit <? 0); [|apply In_firstn_list in H];
    now apply In_skipn_list in H.
Qed.

Lemma limit_offset_all {A} limit (l : list A) :
  Z.of_nat (List.length l) <= limit -> limit_offset limit 0 l = l.
Proof.
  intros H. unfold limit_offset. simpl.
  destruct (limit <? 0) eqn:E; [reflexivity|].
  apply firstn_all2. lia.
Qed.


Lemma In_listing from_filter since q db r :
  In r (Spec.listing from_filter since q db) <->
  In r db /\ Spec.selected from_filter since q r = true.
Proof.
  unfold Spec.listing. rewrite <- where_sql_selected, <- filter_In.
  split; apply Permutation_in;
    [apply order_by_perm | symmetry; apply order_by_perm].
Qed.

Lemma total_listing limit offset from_filter since q db :
  snd (list_messages limit offset from_filter since q db) =
  Z.of_nat (List.length (Spec.listing from_filter since q db)).
Proof.
  unfold list_messages, Spec.listing. simpl. f_equal.
  apply Permutation_length. symmetry. apply order_by_perm.
Qed.

Lemma selected_from from_filter since q r f :
  from_filter = Some f -> Py.truthy f = true ->
  Spec.selected from_filter since q r = true -> r.(from_msisdn) = f.
Proof.
  intros -> Hf H. unfold Spec.selected in H. cbn [Spec.provided] in H.
  rewrite Hf in H. apply andb_true_iff in H as [H _].
  apply andb_true_iff in H as [H _]. now apply String.eqb_eq.
Qed.

Lemma selected_since from_filter since q r s :
  since = Some s -> Py.truthy s = true ->
  Spec.selected from_filter since q r = true -> String.leb s r.(ts) = true.
Proof.
  intros -> Hs H. unfold Spec.selected in H. cbn [Spec.provided] in H.
  rewrite Hs in H. apply andb_true_iff in H as [H _].
  now apply andb_true_iff in H as [_ H].
Qed.

Lemma selected_q from_filter since q r x :
  q = Some x -> Py.truthy x = true ->
  Spec.selected from_filter since q r = true -> r.(text) <> None.
Proof.
  intros -> Hx H. unfold Spec.selected in H. cbn [Spec.provided] in H.
  rewrite Hx in H. apply andb_true_iff in H as [_ H].
  destruct (text r); [discriminate | discriminate].
Qed.

End Listing.

(** X1.  Every item of a page comes from a stored row that passes the
    filters: with a [from] filter its sender is the filter value, with a
    [since] filter its timestamp is at or after the filter value, and
    with a [q] filter it has a text. *)
Theorem list_messages_items_pass_filters
    (limit offset : Z) (from_filter since q : option string)
    (db : Storage.table) (it : Storage.item) :
  In it (fst (Storage.list_messages limit offset from_filter since q db)) ->
  (exists r, In r db /\ it = Storage.item_of_row r)
  /\ (forall f, from_filter = Some f -> Py.truthy f = true ->
        Storage.item_from it = f)
  /\ (forall s, since = Some s -> Py.truthy s = true ->
        String.leb s (Storage.item_ts it) = true)
  /\ (forall x, q = Some x -> Py.truthy x = true ->
        Storage.item_text it <> None).
Proof.
  rewrite list_messages_listing. intros Hin.
  apply in_map_iff in Hin as (r & <- & Hin).
  apply In_limit_offset, In_listing in Hin as [Hdb Hsel].
  split; [now exists r|]. repeat split.
  - intros f Hf Ht. exact (selected_from _ _ _ _ _ Hf Ht Hsel).
  - intros s Hs Ht. exact (selected_since _ _ _ _ _ Hs Ht Hsel).
  - intros x Hx Ht. exact (selected_q _ _ _ _ _ Hx Ht Hsel).
Qed.

Lemma list_messages_items_pass_filters_witness :
  Storage.item_from
    (Storage.item_of_row
       {| Storage.message_id := "m3";
          Storage.from_msisdn := "+11111111111";
          Storage.to_msisdn := "+14155550100";
          Storage.ts := "2025-01-15T10:00:00Z";
          Storage.text := None;
          Storage.created_at := "2025-01-15 10:00:02" |})
  = "+11111111111"%string.
Proof.
  destruct (list_messages_items_pass_filters 1 1
              (Some "+11111111111"%string) None None Samples.db4
              (Storage.item_of_row
                 {| Storage.message_id := "m3";
                    Storage.from_msisdn := "+11111111111";
                    Storage.to_msisdn := "+14155550100";
                    Storage.ts := "2025-01-15T10:00:00Z";
                    Storage.text := None;
                    Storage.created_at := "2025-01-15 10:00:02" |}))
    as (_ & H & _).
  - left. reflexivity.
  - apply (H "+11111111111"%string); reflexivity.
Defined.





(** ** The listing: reading page after page *)

Section Walk.
Import Storage.

Lemma limit_offset_extend {A} a L (l : list A) :
  0 <= a -> 0 <= L ->
  (limit_offset a 0 l ++ limit_offset L a l = limit_offset (a + L) 0 l)%list.
Proof.
  intros Ha HL. rewrite !limit_offset_slice by lia. simpl.
  replace (Z.to_nat (a + L)) with (Z.to_nat a + Z.to_nat L)%nat by lia.
  apply firstn_then_firstn.
Qed.

Lemma walk_pages L n from_filter since q db :
  0 <= L ->
  Vocab.walk L n from_filter since q db =
  fst (list_messages (Z.of_nat n * L) 0 from_filter since q db).
Proof.
  intros HL. unfold Vocab.walk. induction n as [|n IH].
  - reflexivity.
  - rewrite seq_S, flat_map_app, IH. cbn [flat_map Nat.add].
    rewrite app_nil_r, !list_messages_listing, <- map_app.
    rewrite limit_offset_extend by lia.
    now replace (Z.of_nat n * L + L) with (Z.of_nat (S n) * L) by lia.
Qed.

End Walk.

(** X4.  Reading [n] pages of [L >= 1] items one after the other, from
    offset 0 in steps of [L], gives the first [n * L] items of the
    listing; once [n * L] reaches the total this is the whole listing,
    each matching row once. *)
Theorem list_messages_walk
    (L : Z) (n : nat) (from_filter since q : option string)
    (db : Storage.table) :
  1 <= L ->
  Vocab.walk L n from_filter since q db =
  fst (Storage.list_messages (Z.of_nat n * L) 0 from_filter since q db)
  /\ (snd (Storage.list_messages L 0 from_filter since q db)
      <= Z.of_nat n * L ->
      Vocab.walk L n from_filter since q db =
      map Storage.item_of_row (Spec.listing from_filter since q db)).
Proof.
  intros HL. split; [apply walk_pages; lia|].
  rewrite total_listing. intros Hn.
  rewrite walk_pages by lia. rewrite list_messages_listing.
  now rewrite limit_offset_all.
Qed.

Lemma list_messages_walk_witness :
  map Storage.item_message_id (Vocab.walk 3 2 None None None Samples.db4)
  = ["m2"; "m1"; "m3"; "m4"]%string.
Proof.
  destruct (list_messages_walk 3 2 None None None Samples.db4 ltac:(lia))
    as [_ H].
  rewrite H; [reflexivity|]. vm_compute. intros E. discriminate E.
Defined.

(** ** The store and the listing together *)

Section InsertList.
Import Storage.

Lemma selected_own_sender (r : row) :
  Spec.selected (Some r.(from_msisdn)) None None r = true.
Proof.
  unfold Spec.selected. cbn [Spec.provided].
  destruct (Py.truthy (from_msisdn r)); [|reflexivity].
  now rewrite String.eqb_refl.
Qed.

Lemma selected_no_filter (r : row) : Spec.selected None None None r = true.
Proof. reflexivity. Qed.

Lemma filter_id_length (db : table) mid :
  unique_ids db ->
  (List.length (filter (fun r => String.eqb r.(message_id) mid) db) <= 1)%nat.
Proof.
  unfold unique_ids. induction db as [|r db IH]; simpl; [lia|].
  intros Hnd. inversion Hnd as [|? ? Hnin Hnd']; subst.
  destruct (String.eqb (message_id r) mid) eqn:E; [|auto].
  apply String.eqb_eq in E. subst mid. simpl.
  replace (filter (fun r0 => String.eqb (message_id r0) (message_id r)) db)
    with (@nil row); [simpl; lia|].
  symmetry. clear IH Hnd Hnd'. induction db as [|x db IH]; [reflexivity|].
  simpl in *. destruct (String.eqb (message_id x) (message_id r)) eqn:E.
  - apply String.eqb_eq in E. exfalso. apply Hnin. now left.
  - apply IH. intros H. apply Hnin. now right.
Qed.

End InsertList.

(** X5.  After a message with a fresh [message_id] is inserted, the
    total of the unfiltered listing is one more than before, and a
    listing by its sender, from offset 0 with a limit that covers the
    total, shows the message with the fields it was sent with. *)
Theorem insert_then_listed
    (now : string) (msg : Models.MessageIn) (db : Storage.table)
    (limit : Z) :
  (forall r, In r db -> Storage.message_id r <> Models.message_id msg) ->
  snd (Storage.list_messages limit 0 (Some (Models.from_ msg)) None None
         (fst (Storage.insert_message_idempotent now msg db))) <= limit ->
  In (Vocab.item_of_message msg)
     (fst (Storage.list_messages limit 0 (Some (Models.from_ msg)) None None
             (fst (Storage.insert_message_idempotent now msg db))))
  /\ snd (Storage.list_messages limit 0 None None None
            (fst (Storage.insert_message_idempotent now msg db)))
     = snd (Storage.list_messages limit 0 None None None db) + 1.
Proof.
  intros Hfresh. unfold Storage.insert_message_idempotent.
  rewrite (existsb_id_false db _ Hfresh). cbn [fst].
  set (row := {| Storage.message_id := Models.message_id msg;
                 Storage.from_msisdn := Models.from_ msg;
                 Storage.to_msisdn := Models.to msg;
                 Storage.ts := Models.ts msg;
                 Storage.text := Models.text msg;
                 Storage.created_at := now |}).
  intros Hlimit. split.
  - rewrite total_listing in Hlimit. rewrite list_messages_listing.
    rewrite limit_offset_all by exact Hlimit.
    change (Vocab.item_of_message msg) with (Storage.item_of_row row).
    apply in_map, In_listing. split.
    + apply in_or_app. right. now left.
    + apply (selected_own_sender row).
  - rewrite !list_messages_total.
    rewrite filter_app, length_app. cbn [filter].
    rewrite selected_no_filter. cbn [List.length]. lia.
Qed.

Lemma insert_then_listed_witness :
  In (Vocab.item_of_message Samples.m2)
     (fst (Storage.list_messages 50 0 (Some "+11111111111"%string) None None
             (fst (Storage.insert_message_idempotent "2025-01-15 10:00:02"
                     Samples.m2 Samples.db1)))).
Proof.
  destruct (insert_then_listed "2025-01-15 10:00:02" Samples.m2 Samples.db1
              50) as [H _].
  - intros r [<- | []]. discriminate.
  - vm_compute. intros E. discriminate E.
  - exact H.
Defined.

(** X6.  In every store built from the empty table by inserts, each
    [message_id] is stored at most once, however often and with whatever
    fields it was delivered, and no page of a listing shows a
    [message_id] twice. *)
Theorem reachable_one_row_per_id (db : Storage.table) :
  Storage.reachable db ->
  (forall mid,
      (List.length
         (filter (fun r => String.eqb (Storage.message_id r) mid) db) <= 1)%nat)
  /\ (forall limit offset from_filter since q,
        NoDup (Spec.page_ids
                 (Storage.list_messages limit offset from_filter since q db))).
Proof.
  intros Hr. apply reachable_unique_ids in Hr. split.
  - intros mid. now apply filter_id_length.
  - intros limit offset from_filter since q. rewrite page_ids_listing.
    apply NoDup_limit_offset. now apply listing_unique_ids.
Qed.

Lemma reachable_one_row_per_id_witness :
  (List.length
     (filter (fun r => String.eqb (Storage.message_id r) "m1")
        (fst (Storage.insert_message_idempotent "2025-01-16 08:30:01"
                Samples.m1_again
                (fst (Storage.insert_message_idempotent "2025-01-15 10:00:01"
                        Samples.m1 Storage.init_db))))) <= 1)%nat.
Proof.
  destruct (reachable_one_row_per_id
              (fst (Storage.insert_message_idempotent "2025-01-16 08:30:01"
                      Samples.m1_again
                      (fst (Storage.insert_message_idempotent
                              "2025-01-15 10:00:01" Samples.m1
                              Storage.init_db))))) as [H _].
  - apply Storage.reach_insert, Storage.reach_insert, Storage.reach_init.
  - apply H.
Defined.

(** ** Statistics: bounds and counts *)

Section SortedHead.
Context {A : Type} (leb : A -> A -> bool).
Hypothesis leb_total : forall a b, leb a b = true \/ leb b a = true.
Hypothesis leb_trans :
  forall a b c, leb a b = true -> leb b c = true -> leb a c = true.

Lemma order_by_head_none l :
  hd_error (Storage.order_by leb l) = None <-> l = [].
Proof.
  split.
  - intros H. destruct (Storage.order_by leb l) as [|x s] eqn:E;
      [|discriminate].
    pose proof (order_by_perm leb l) as Hp. rewrite E in Hp.
    now apply Permutation_nil in Hp.
  - now intros ->.
Qed.

Lemma order_by_head_least l x :
  hd_error (Storage.order_by leb l) = Some x ->
  In x l /\ forall y, In y l -> leb x y = true.
Proof.
  intros H. destruct (Storage.order_by leb l) as [|x' s] eqn:E;
    [discriminate|]. inversion H; subst x'.
  pose proof (order_by_perm leb l) as Hp. rewrite E in Hp.
  pose proof (order_by_sorted leb leb_total leb_trans l) as Hs.
  rewrite E in Hs. inversion Hs as [|? ? _ Hall]; subst.
  rewrite Forall_forall in Hall. split.
  - eapply Permutation_in; [exact Hp | now left].
  - intros y Hy. apply Permutation_sym in Hp.
    apply (Permutation_in _ Hp) in Hy as [<- | Hy]; [|now apply Hall].
    now destruct (leb_total x x).
Qed.

End SortedHead.

Section StatsBounds.
Import Storage.

Lemma row_leb_ts a b : row_leb a b = true -> String.leb a.(ts) b.(ts) = true.
Proof.
  unfold row_leb. intros H. apply ts_id_leb_iff in H. apply string_leb_iff.
  destruct H as [H | [H _]]; [now left | now right].
Qed.

Lemma row_geb_total a b :
  (fun x y => row_leb y x) a b = true \/ (fun x y => row_leb y x) b a = true.
Proof. simpl. destruct (row_leb_total a b); auto. Qed.

Lemma row_geb_trans a b c :
  (fun x y => row_leb y x) a b = true -> (fun x y => row_leb y x) b c = true ->
  (fun x y => row_leb y x) a c = true.
Proof. simpl. intros H1 H2. exact (row_leb_trans c b a H2 H1). Qed.

Lemma count_of_cons r db s :
  count_of (r :: db) s =
  (if String.eqb r.(from_msisdn) s then 1 else 0) + count_of db s.
Proof.
  unfold count_of. cbn [filter].
  destruct (String.eqb (from_msisdn r) s); cbn [List.length]; lia.
Qed.

Lemma count_of_nonneg db s : 0 <= count_of db s.
Proof. unfold count_of. lia. Qed.

Lemma count_of_positive db r :
  In r db -> 1 <= count_of db r.(from_msisdn).
Proof.
  induction db as [|x db IH]; [contradiction|].
  intros [-> | Hin]; rewrite count_of_cons.
  - rewrite String.eqb_refl. pose proof (count_of_nonneg db (from_msisdn r)).
    lia.
  - specialize (IH Hin). destruct (String.eqb (from_msisdn x) (from_msisdn r));
      lia.
Qed.

Lemma In_senders db s : In s (senders db) <-> exists r, In r db /\ r.(from_msisdn) = s.
Proof.
  unfold senders. rewrite nodup_In, in_map_iff.
  split; intros (r & H1 & H2); exists r; auto.
Qed.

Lemma In_group db s c :
  In (s, c) (group_by_sender db) <-> In s (senders db) /\ c = count_of db s.
Proof.
  unfold group_by_sender. rewrite in_map_iff. split.
  - intros (x & E & Hx). inversion E; subst. split; [|reflexivity].
    eapply Permutation_in; [apply order_by_perm | exact Hx].
  - intros [Hs ->]. exists s. split; [reflexivity|].
    eapply Permutation_in; [symmetry; apply order_by_perm | exact Hs].
Qed.

Lemma map_fst_group db :
  map fst (group_by_sender db) = order_by String.leb (senders db).
Proof.
  unfold group_by_sender. rewrite map_map. apply map_id.
Qed.

Lemma sorted_groups_perm db :
  Permutation (order_by cnt_desc (group_by_sender db)) (group_by_sender db).
Proof. apply order_by_perm. Qed.

Lemma sorted_groups_names db :
  Permutation (map fst (order_by cnt_desc (group_by_sender db))) (senders db).
Proof.
  rewrite (Permutation_map fst (sorted_groups_perm db)), map_fst_group.
  apply order_by_perm.
Qed.

End StatsBounds.

(** X7.  [get_stats] gives no first and no last timestamp exactly on the
    empty store; otherwise the first timestamp is the [ts] of a stored
    message and no stored [ts] is below it, and the last timestamp is
    the [ts] of a stored message and no stored [ts] is above it. *)
Theorem get_stats_first_last (db : Storage.table) :
  (Storage.first_message_ts (Storage.get_stats db) = None <-> db = [])
  /\ (Storage.last_message_ts (Storage.get_stats db) = None <-> db = [])
  /\ (forall t, Storage.first_message_ts (Storage.get_stats db) = Some t ->
        (exists r, In r db /\ Storage.ts r = t)
        /\ forall r, In r db -> String.leb t (Storage.ts r) = true)
  /\ (forall t, Storage.last_message_ts (Storage.get_stats db) = Some t ->
        (exists r, In r db /\ Storage.ts r = t)
        /\ forall r, In r db -> String.leb (Storage.ts r) t = true).
Proof.
  unfold Storage.get_stats.
  cbn [Storage.first_message_ts Storage.last_message_ts].
  split; [|split; [|split]].
  - rewrite <- (order_by_head_none Storage.row_leb db).
    destruct (hd_error _); simpl; split; congruence.
  - rewrite <- (order_by_head_none (fun a b => Storage.row_leb b a) db).
    destruct (hd_error _); simpl; split; congruence.
  - intros t H.
    destruct (hd_error (Storage.order_by Storage.row_leb db)) as [x|] eqn:E;
      [|discriminate]. simpl in H. inversion H; subst t.
    apply (order_by_head_least _ row_leb_total row_leb_trans) in E
      as [Hin Hleast].
    split; [now exists x|]. intros r Hr. apply row_leb_ts. now apply Hleast.
  - intros t H.
    destruct (hd_error (Storage.order_by (fun a b => Storage.row_leb b a) db))
      as [x|] eqn:E; [|discriminate]. simpl in H. inversion H; subst t.
    apply (order_by_head_least _ row_geb_total row_geb_trans) in E
      as [Hin Hleast].
    split; [now exists x|]. intros r Hr. apply row_leb_ts.
    exact (Hleast r Hr).
Qed.

Lemma get_stats_first_last_witness :
  String.leb "2025-01-15T09:00:00Z" "2025-01-15T10:00:00Z" = true.
Proof.
  destruct (get_stats_first_last Samples.db4) as (_ & _ & H & _).
  destruct (H "2025-01-15T09:00:00Z"%string eq_refl) as [_ Hall].
  apply (Hall {| Storage.message_id := "m1";
                 Storage.from_msisdn := "+919876543210";
                 Storage.to_msisdn := "+14155550100";
                 Storage.ts := "2025-01-15T10:00:00Z";
                 Storage.text := Some "Hello"%string;
                 Storage.created_at := "2025-01-15 10:00:01" |}).
  left. reflexivity.
Defined.

Section StatsSums.
Import Storage.











Lemma StronglySorted_app_cross {A} (R : A -> A -> Prop) l1 l2 :
  StronglySorted R (l1 ++ l2) ->
  forall a b, In a l1 -> In b l2 -> R a b.
Proof.
  induction l1 as [|x l1 IH]; simpl; intros Hs a b Ha Hb; [contradiction|].
  inversion Hs as [|? ? Hs' Hall]; subst. destruct Ha as [<- | Ha].
  - rewrite Forall_forall in Hall. apply Hall, in_or_app. now right.
  - now apply IH.
Qed.

End StatsSums.




(** X9.  Every entry of [messages_per_sender] names a sender of a stored
    message together with the number of stored messages of that sender,
    which is at least 1; no sender is named twice; and a stored sender
    that is not named has no more messages than any sender that is. *)
Theorem get_stats_messages_per_sender (db : Storage.table) :
  (forall s c,
      In (s, c) (Storage.messages_per_sender (Storage.get_stats db)) ->
      c = Z.of_nat
            (List.length
               (filter (fun r => String.eqb (Storage.from_msisdn r) s) db))
      /\ 1 <= c
      /\ exists r, In r db /\ Storage.from_msisdn r = s)
  /\ NoDup (map fst (Storage.messages_per_sender (Storage.get_stats db)))
  /\ (forall s c r,
        In (s, c) (Storage.messages_per_sender (Storage.get_stats db)) ->
        In r db ->
        ~ In (Storage.from_msisdn r)
             (map fst (Storage.messages_per_sender (Storage.get_stats db))) ->
        Z.of_nat
          (List.length
             (filter (fun x => String.eqb (Storage.from_msisdn x)
                                 (Storage.from_msisdn r)) db))
        <= c).
Proof.
  unfold Storage.get_stats. cbn [Storage.messages_per_sender].
  set (sorted := Storage.order_by Storage.cnt_desc
                   (Storage.group_by_sender db)).
  assert (Hgroup : forall s c, In (s, c) sorted ->
                     In s (Storage.senders db) /\ c = Storage.count_of db s).
  { intros s c H. apply In_group.
    eapply Permutation_in; [apply sorted_groups_perm | exact H]. }
  split; [|split].
  - intros s c H. apply In_firstn_list, Hgroup in H as [Hs ->].
    apply In_senders in Hs as (r & Hr & <-).
    split; [reflexivity|]. split; [now apply count_of_positive|].
    now exists r.
  - rewrite <- firstn_map. apply NoDup_firstn.
    eapply Permutation_NoDup;
      [symmetry; apply sorted_groups_names | apply NoDup_nodup].
  - intros s c r Hsc Hr Hout.
    change (Storage.count_of db (Storage.from_msisdn r) <= c).
    assert (Hin : In (Storage.from_msisdn r,
                      Storage.count_of db (Storage.from_msisdn r)) sorted).
    { eapply Permutation_in; [symmetry; apply sorted_groups_perm|].
      apply In_group. split; [|reflexivity].
      apply In_senders. now exists r. }
    rewrite <- (firstn_skipn 10 sorted) in Hin.
    apply in_app_or in Hin as [Hin | Hin].
    + exfalso. apply Hout.
      change (Storage.from_msisdn r)
        with (fst (Storage.from_msisdn r,
                   Storage.count_of db (Storage.from_msisdn r))).
      now apply in_map.
    + pose proof (order_by_sorted Storage.cnt_desc cnt_desc_total
                    cnt_desc_trans (Storage.group_by_sender db)) as Hs.
      fold sorted in Hs. rewrite <- (firstn_skipn 10 sorted) in Hs.
      pose proof (StronglySorted_app_cross _ _ _ Hs _ _ Hsc Hin) as Hle.
      unfold Storage.cnt_desc in Hle. simpl in Hle. lia.
Qed.

Lemma get_stats_messages_per_sender_witness :
  2 = Z.of_nat
        (List.length
           (filter (fun r => String.eqb (Storage.from_msisdn r) "+11111111111")
              Samples.db4)).
Proof.
  destruct (get_stats_messages_per_sender Samples.db4) as (H & _).
  destruct (H "+11111111111"%string 2) as (Hc & _); [|exact Hc].
  left. reflexivity.
Defined.

(** X10.  An insert that creates a row raises [total_messages] by one
    and [senders_count] by at most one, never lowering it; a duplicate
    leaves the statistics as they were. *)
Theorem get_stats_after_insert
    (now : string) (msg : Models.MessageIn) (db : Storage.table) :
  let db' := fst (Storage.insert_message_idempotent now msg db) in
  let created := snd (Storage.insert_message_idempotent now msg db) in
  Storage.total_messages (Storage.get_stats db')
  = Storage.total_messages (Storage.get_stats db)
    + (if created then 1 else 0)
  /\ Storage.senders_count (Storage.get_stats db)
     <= Storage.senders_count (Storage.get_stats db')
     <= Storage.senders_count (Storage.get_stats db) + 1
  /\ (created = false -> Storage.get_stats db' = Storage.get_stats db).
Proof.
  unfold Storage.insert_message_idempotent.
  destruct (existsb _ db); cbn [fst snd].
  - split; [lia|]. split; [lia | reflexivity].
  - unfold Storage.get_stats.
    cbn [Storage.total_messages Storage.senders_count].
    split; [rewrite length_app; cbn [List.length]; lia|].
    split; [|discriminate].
    unfold Storage.senders. rewrite map_app. cbn [map Storage.from_msisdn].
    set (l := map Storage.from_msisdn db). set (x := Models.from_ msg).
    split.
    + apply inj_le. apply NoDup_incl_length; [apply NoDup_nodup|].
      intros s Hs. apply nodup_In. apply nodup_In in Hs.
      apply in_or_app. now left.
    + assert (H : (List.length (nodup string_dec (l ++ [x]))
                   <= List.length (x :: nodup string_dec l))%nat).
      { apply NoDup_incl_length; [apply NoDup_nodup|].
        intros s Hs. apply nodup_In, in_app_or in Hs as [Hs | [<- | []]].
        - right. now apply nodup_In.
        - now left. }
      cbn [List.length] in H. lia.
Qed.

Lemma get_stats_after_insert_witness :
  Storage.get_stats
    (fst (Storage.insert_message_idempotent "2025-01-16 08:30:01"
            Samples.m1_again Samples.db1))
  = Storage.get_stats Samples.db1.
Proof.
  destruct (get_stats_after_insert "2025-01-16 08:30:01" Samples.m1_again
              Samples.db1) as (_ & _ & H).
  apply H. reflexivity.
Defined.

(** ** The signature verifier: what is accepted *)

Section DigestLength.
Import Py.

Lemma round_length st kw :
  List.length st = 8%nat -> List.length (Sha256.round st kw) = 8%nat.
Proof.
  destruct st as [|a [|b [|c [|d [|e [|f [|g [|h [|i st]]]]]]]]];
    simpl; intros H; try discriminate; reflexivity.
Qed.

Lemma fold_round_length kws : forall st,
  List.length st = 8%nat ->
  List.length (fold_left Sha256.round kws st) = 8%nat.
Proof.
  induction kws as [|kw kws IH]; intros st H; [exact H|].
  simpl. apply IH. now apply round_length.
Qed.

Lemma add_state_length s : forall t,
  List.length (Sha256.add_state s t)
  = Nat.min (List.length s) (List.length t).
Proof.
  induction s as [|x s IH]; intros [|y t]; simpl; try reflexivity.
  now rewrite IH.
Qed.

Lemma compress_length st block :
  List.length st = 8%nat -> List.length (Sha256.compress st block) = 8%nat.
Proof.
  intros H. unfold Sha256.compress.
  rewrite add_state_length, fold_round_length, H by exact H. reflexivity.
Qed.

Lemma blocks_length fuel : forall st bs,
  List.length st = 8%nat -> List.length (Sha256.blocks fuel st bs) = 8%nat.
Proof.
  induction fuel as [|fuel IH]; intros st bs H; [exact H|].
  simpl. destruct bs; [exact H|]. apply IH. now apply compress_length.
Qed.

Lemma be_bytes_length n x : List.length (Sha256.be_bytes n x) = n.
Proof. induction n as [|n IH]; simpl; [reflexivity | now rewrite IH]. Qed.

Lemma flat_map_be_bytes_length st :
  List.length (flat_map (Sha256.be_bytes 4) st) = (4 * List.length st)%nat.
Proof.
  induction st as [|x st IH]; [reflexivity|].
  cbn [flat_map]. rewrite length_app, be_bytes_length, IH.
  cbn [List.length]. lia.
Qed.

(** A SHA-256 digest has 32 bytes, whatever the message. *)
Lemma sha256_digest_length msg : List.length (Sha256.digest msg) = 32%nat.
Proof.
  unfold Sha256.digest. rewrite length_map, flat_map_be_bytes_length.
  rewrite blocks_length; reflexivity.
Qed.

Lemma hex_length d :
  String.length (Hmac.hex d) = (2 * List.length d)%nat.
Proof.
  induction d as [|b d IH]; [reflexivity|].
  change (Hmac.hex (b :: d)) with
    (String (Hmac.hex_digit (Z.shiftr (byte_val b) 4))
       (String (Hmac.hex_digit (Z.land (byte_val b) 15)) (Hmac.hex d))).
  cbn [String.length List.length]. rewrite IH. lia.
Qed.

Lemma hex_byte_lower b :
  all_chars Vocab.is_lower_hex (Hmac.hex_byte b) = true.
Proof. destruct b; vm_compute; reflexivity. Qed.

Lemma hex_lower d : all_chars Vocab.is_lower_hex (Hmac.hex d) = true.
Proof.
  induction d as [|b d IH]; [reflexivity|].
  cbn [Hmac.hex]. now rewrite all_chars_app, hex_byte_lower, IH.
Qed.

Lemma hexdigest_length key msg :
  String.length (Hmac.hexdigest key msg) = 64%nat.
Proof.
  unfold Hmac.hexdigest, Hmac.digest.
  now rewrite hex_length, sha256_digest_length.
Qed.

End DigestLength.

(** X11.  [verify_signature] returns [True] exactly when the header,
    once stripped, is the hexadecimal HMAC-SHA256 of the body under the
    secret, and such a header has 64 characters, all lowercase
    hexadecimal digits; it raises [TypeError] exactly when the stripped
    header holds a character outside ASCII; in every other case it
    returns [False]. *)
Theorem verify_signature_accepts_exactly
    (secret : string) (body : Py.bytes) (signature_header : string) :
  (Main.verify_signature secret body signature_header = Returned true <->
   Py.strip signature_header = Hmac.hexdigest (Py.encode_utf8 secret) body)
  /\ (Main.verify_signature secret body signature_header = Returned true ->
      String.length (Py.strip signature_header) = 64%nat
      /\ Py.all_chars Vocab.is_lower_hex (Py.strip signature_header) = true)
  /\ (Main.verify_signature secret body signature_header = Raised TypeError <->
      Py.all_chars Py.is_ascii (Py.strip signature_header) = false)
  /\ (Py.all_chars Py.is_ascii (Py.strip signature_header) = true ->
      Py.strip signature_header <> Hmac.hexdigest (Py.encode_utf8 secret) body ->
      Main.verify_signature secret body signature_header = Returned false).
Proof.
  assert (Htrue :
            Main.verify_signature secret body signature_header = Returned true
            <-> Py.strip signature_header
                = Hmac.hexdigest (Py.encode_utf8 secret) body).
  { unfold Main.verify_signature, Main.compare_digest, Hmac.hexdigest.
    rewrite hex_ascii. cbn [andb].
    destruct (Py.all_chars Py.is_ascii (Py.strip signature_header)) eqn:E.
    - split.
      + intros H. inversion H as [Heq]. apply String.eqb_eq in Heq.
        now symmetry.
      + intros ->. now rewrite String.eqb_refl.
    - split; [discriminate|]. intros H. rewrite H, hex_ascii in E.
      discriminate. }
  split; [exact Htrue|]. split; [|split].
  - intros H. apply Htrue in H. rewrite H.
    split; [apply hexdigest_length | apply hex_lower].
  - unfold Main.verify_signature, Main.compare_digest, Hmac.hexdigest.
    rewrite hex_ascii. cbn [andb].
    destruct (Py.all_chars Py.is_ascii (Py.strip signature_header));
      split; intros H; try reflexivity; discriminate.
  - intros Ha Hne. unfold Main.verify_signature, Hmac.hexdigest in *.
    rewrite compare_digest_hex by exact Ha. f_equal.
    apply String.eqb_neq. congruence.
Qed.

Lemma verify_signature_accepts_exactly_witness :
  String.length
    (Py.strip (" " ++ Samples.sign Samples.body "testsecret")%string)
  = 64%nat.
Proof.
  destruct (verify_signature_accepts_exactly "testsecret" Samples.body
              (" " ++ Samples.sign Samples.body "testsecret")%string)
    as (_ & H & _).
  apply H. vm_compute. reflexivity.
Defined.

(** ** The validators: what is accepted *)

Section Validators.
Import Py Models.
Local Open Scope string_scope.

Lemma lstrip_spaces_inv s :
  all_chars is_space (lstrip s) = true -> all_chars is_space s = true.
Proof.
  induction s as [|c s IH]; simpl; [reflexivity|].
  destruct (is_space c) eqn:E; [exact IH|].
  simpl. now rewrite E.
Qed.

Lemma rstrip_empty_inv s :
  rstrip s = EmptyString -> all_chars is_space s = true.
Proof.
  induction s as [|c s IH]; simpl; [reflexivity|].
  destruct (rstrip s) as [|d r]; [|discriminate].
  destruct (is_space c); [|discriminate]. intros _. now apply IH.
Qed.

(** Stripping leaves nothing exactly when every character is white
    space. *)
Lemma strip_empty_iff s :
  strip s = EmptyString <-> all_chars is_space s = true.
Proof.
  unfold strip. split.
  - intros H. now apply lstrip_spaces_inv, rstrip_empty_inv.
  - intros H. now rewrite lstrip_all_spaces.
Qed.

Lemma truthy_false_iff s : truthy s = false <-> s = EmptyString.
Proof. destruct s; simpl; split; congruence. Qed.

Lemma validate_message_id_cases v :
  validate_message_id v =
  if all_chars is_space v
  then ValueError "message_id must be non-empty"
  else Ok v.
Proof.
  unfold validate_message_id.
  destruct (all_chars is_space v) eqn:E.
  - apply strip_empty_iff in E. rewrite E. simpl. now rewrite orb_true_r.
  - assert (Hs : truthy (strip v) = true).
    { destruct (truthy (strip v)) eqn:T; [reflexivity|].
      apply truthy_false_iff, strip_empty_iff in T. congruence. }
    assert (Hv : truthy v = true) by (destruct v; [discriminate | reflexivity]).
    now rewrite Hs, Hv.
Qed.

End Validators.

(** X12.  [validate_message_id] accepts a value, and returns it as it
    is, exactly when the value holds a character that is not white
    space; the empty string and every value made of white space only
    are refused. *)
Theorem validate_message_id_accepts_exactly (v : string) :
  (Models.validate_message_id v = Models.Ok v <->
   Py.all_chars Py.is_space v = false)
  /\ (Models.validate_message_id v
      = Models.ValueError "message_id must be non-empty" <->
      Py.all_chars Py.is_space v = true).
Proof.
  rewrite validate_message_id_cases.
  destruct (Py.all_chars Py.is_space v); split; split;
    intros H; try reflexivity; discriminate.
Qed.

(** X13.  [validate_from] and [validate_to] accept a value, and return
    it as it is, exactly when it is a plus sign, a digit from 1 to 9 and
    1 to 14 more digits, possibly followed by one newline at the very
    end; every other value is refused. *)
Theorem validate_from_to_accept_exactly (v : string) :
  let e164 :=
    exists d ds post,
      v = String "+" (String d (ds ++ post))
      /\ Models.in_range "1" "9" d = true
      /\ Py.all_chars Models.is_digit ds = true
      /\ (1 <= String.length ds <= 14)%nat
      /\ (post = EmptyString \/ post = String "010" EmptyString) in
  (Models.validate_from v = Models.Ok v <-> e164)
  /\ (Models.validate_to v = Models.Ok v <-> e164)
  /\ (~ e164 ->
      Models.validate_from v = Models.ValueError "from must be in E.164 format"
      /\ Models.validate_to v = Models.ValueError "to must be in E.164 format").
Proof.
  cbv zeta. rewrite <- E164_REGEX_iff.
  unfold Models.validate_from, Models.validate_to.
  destruct (Models.E164_REGEX v); cbn [negb].
  - split; [|split]; try (split; intros; reflexivity).
    intros H. now contradiction H.
  - split; [|split]; try (split; intros; discriminate).
    intros _. split; reflexivity.
Qed.

Lemma validate_from_to_accept_exactly_witness :
  Models.validate_from "+919876543210" = Models.Ok "+919876543210"%string.
Proof.
  destruct (validate_from_to_accept_exactly "+919876543210") as ([_ H] & _).
  apply H. exists "9"%char, "19876543210"%string, EmptyString.
  repeat split; simpl; auto; lia.
Defined.

Lemma validate_message_id_accepts_exactly_witness :
  Models.validate_message_id " m1 " = Models.Ok " m1 "%string.
Proof.
  destruct (validate_message_id_accepts_exactly " m1 ") as ([_ H] & _).
  apply H. reflexivity.
Defined.

(** ** The schema: what is accepted *)

Section ParseObj.
Import Py Models.
Local Open Scope string_scope.
Variable fromisoformat : string -> bool.

Lemma validate_message_id_same s v : validate_message_id s = Ok v -> v = s.
Proof.
  unfold validate_message_id. destruct (_ || _); [discriminate|].
  now intros [= <-].
Qed.

Lemma validate_from_same s v : validate_from s = Ok v -> v = s.
Proof.
  unfold validate_from. destruct (negb _); [discriminate|]. now intros [= <-].
Qed.

Lemma validate_to_same s v : validate_to s = Ok v -> v = s.
Proof.
  unfold validate_to. destruct (negb _); [discriminate|]. now intros [= <-].
Qed.

Lemma validate_ts_same s v : validate_ts fromisoformat s = Ok v -> v = s.
Proof.
  unfold validate_ts. destruct (negb _); [discriminate|].
  destruct (fromisoformat _); [|discriminate]. now intros [= <-].
Qed.

Lemma validate_text_ok_iff t :
  validate_text (Some t) = Ok (Some t) <-> (String.length t <= 4096)%nat.
Proof.
  unfold validate_text. destruct (4096 <? String.length t)%nat eqn:E.
  - apply Nat.ltb_lt in E. split; [discriminate | lia].
  - apply Nat.ltb_ge in E. split; [auto | reflexivity].
Qed.

(** A required field without error holds a string that its validator
    accepts. *)
Lemma required_no_error name validator f :
  (forall s v, validator s = Ok v -> v = s) ->
  snd (required name validator f) = [] ->
  exists s, f = Str s /\ validator s = Ok s
            /\ fst (required name validator f) = s.
Proof.
  intros Hsame. unfold required.
  destruct f as [| | s |]; try discriminate.
  destruct (validator s) as [v|msg] eqn:E; [|discriminate].
  intros _. pose proof (Hsame s v E). subst v. now exists s.
Qed.

Lemma optional_no_error f :
  snd (optional "text" validate_text f) = [] ->
  (f = Missing \/ f = Null) /\ fst (optional "text" validate_text f) = None
  \/ exists t, f = Str t /\ (String.length t <= 4096)%nat
               /\ fst (optional "text" validate_text f) = Some t.
Proof.
  unfold optional. destruct f as [| | t |]; try discriminate; auto.
  unfold validate_text. destruct (4096 <? String.length t)%nat eqn:E;
    [discriminate|].
  intros _. right. exists t. apply Nat.ltb_ge in E. auto.
Qed.

(** What an accepted payload looks like. *)
Lemma parse_obj_inl j m :
  parse_obj fromisoformat j = inl m ->
  exists f_text,
    j = JObject (Str m.(message_id)) (Str m.(from_)) (Str m.(to))
          (Str m.(ts)) f_text
    /\ validate_message_id m.(message_id) = Ok m.(message_id)
    /\ validate_from m.(from_) = Ok m.(from_)
    /\ validate_to m.(to) = Ok m.(to)
    /\ validate_ts fromisoformat m.(ts) = Ok m.(ts)
    /\ ((f_text = Missing \/ f_text = Null) /\ m.(text) = None
        \/ exists t, f_text = Str t /\ m.(text) = Some t
                     /\ (String.length t <= 4096)%nat).
Proof.
  destruct j as [a b c d e|]; [|discriminate].
  rewrite parse_obj_errors.
  destruct (errors_of fromisoformat a b c d e) eqn:E; [|discriminate].
  unfold errors_of in E.
  apply app_eq_nil in E as [E1 E]. apply app_eq_nil in E as [E2 E].
  apply app_eq_nil in E as [E3 E]. apply app_eq_nil in E as [E4 E5].
  apply (required_no_error _ _ _ validate_message_id_same) in E1
    as (s1 & -> & V1 & F1).
  apply (required_no_error _ _ _ validate_from_same) in E2
    as (s2 & -> & V2 & F2).
  apply (required_no_error _ _ _ validate_to_same) in E3
    as (s3 & -> & V3 & F3).
  apply (required_no_error _ _ _ validate_ts_same) in E4
    as (s4 & -> & V4 & F4).
  clear F1 F2 F3 F4. rewrite !required_ok by assumption. cbn [fst].
  apply optional_no_error in E5
    as [[He Hf] | (t & -> & Hlen & Hf)]; rewrite Hf; intros [= <-];
    cbn [message_id from_ to ts text].
  - exists e. repeat split; auto.
  - exists (Str t). repeat split; auto. right. now exists t.
Qed.

Lemma parse_obj_text_valid j m :
  parse_obj fromisoformat j = inl m ->
  validate_text m.(text) = Ok m.(text).
Proof.
  intros H. apply parse_obj_inl in H
    as (f & _ & _ & _ & _ & _ & [[_ ->] | (t & _ & -> & Hlen)]).
  - reflexivity.
  - now apply validate_text_ok_iff.
Qed.

End ParseObj.

(** The accepted readings. *)
Lemma parse_obj_inl_iff (fromisoformat : string -> bool) (j : Models.json)
    (m : Models.MessageIn) :
  Models.parse_obj fromisoformat j = inl m <->
  exists f_text,
    j = Models.JObject (Models.Str (Models.message_id m))
          (Models.Str (Models.from_ m)) (Models.Str (Models.to m))
          (Models.Str (Models.ts m)) f_text
    /\ Models.validate_message_id (Models.message_id m)
       = Models.Ok (Models.message_id m)
    /\ Models.validate_from (Models.from_ m) = Models.Ok (Models.from_ m)
    /\ Models.validate_to (Models.to m) = Models.Ok (Models.to m)
    /\ Models.validate_ts fromisoformat (Models.ts m)
       = Models.Ok (Models.ts m)
    /\ ((f_text = Models.Missing \/ f_text = Models.Null)
        /\ Models.text m = None
        \/ exists t, f_text = Models.Str t /\ Models.text m = Some t
                     /\ (String.length t <= 4096)%nat).
Proof.
  split; [apply parse_obj_inl|].
  intros (f & -> & V1 & V2 & V3 & V4 & Ht).
  rewrite parse_obj_errors. unfold Models.errors_of.
  rewrite !required_ok by assumption. destruct m as [mid mfrom mto mts mtext].
  cbn [Models.message_id Models.from_ Models.to Models.ts Models.text] in *.
  destruct Ht as [[[-> | ->] ->] | (t & -> & -> & Hlen)]; try reflexivity.
  unfold Models.optional. now rewrite (validate_text_short t Hlen).
Qed.

Lemma field_of_Str input s :
  Models.field_of input = Models.Str s <-> Vocab.given_str input = Some s.
Proof.
  unfold Models.field_of, Vocab.given_str.
  destruct input as [[|[|]|n|t|l|d]|]; cbn [Models.str_validator];
    split; intros H; try discriminate; inversion H; reflexivity.
Qed.

Lemma field_of_absent input :
  Models.field_of input = Models.Missing \/ Models.field_of input = Models.Null
  <-> input = None \/ input = Some Models.PyNone.
Proof.
  unfold Models.field_of.
  destruct input as [[|[|]|n|t|l|d]|]; cbn [Models.str_validator];
    split; intros [H | H]; try discriminate; auto.
Qed.

(** X14.  [MessageIn.parse_obj] accepts a loaded document exactly when
    the document gives keyword arguments (it is a dict, or [dict] makes
    one of it, as of a list of pairs; every key is a string and none is
    [__pydantic_self__]) in which [message_id], [from] (or, when there
    is no such key, [from_]), [to] and [ts] hold strings, numbers or
    booleans whose [str] their validators accept, and [text] is missing,
    null, or holds such a value whose [str] has at most 4096 characters;
    the message it returns holds these strings, and no text in the
    first two cases. *)
Theorem parse_obj_accepts_exactly
    (fromisoformat : string -> bool) (obj : Models.value)
    (m : Models.MessageIn) :
  Models.parse_obj fromisoformat (Models.read obj) = inl m <->
  exists kwargs,
    Models.kwargs_of obj = Some kwargs
    /\ Vocab.given_str (Models.get "message_id" kwargs)
       = Some (Models.message_id m)
    /\ Vocab.given_str (Models.input_value "from" "from_" kwargs)
       = Some (Models.from_ m)
    /\ Vocab.given_str (Models.get "to" kwargs) = Some (Models.to m)
    /\ Vocab.given_str (Models.get "ts" kwargs) = Some (Models.ts m)
    /\ Models.validate_message_id (Models.message_id m)
       = Models.Ok (Models.message_id m)
    /\ Models.validate_from (Models.from_ m) = Models.Ok (Models.from_ m)
    /\ Models.validate_to (Models.to m) = Models.Ok (Models.to m)
    /\ Models.validate_ts fromisoformat (Models.ts m)
       = Models.Ok (Models.ts m)
    /\ ((Models.get "text" kwargs = None
         \/ Models.get "text" kwargs = Some Models.PyNone)
        /\ Models.text m = None
        \/ exists t, Vocab.given_str (Models.get "text" kwargs) = Some t
                     /\ Models.text m = Some t
                     /\ (String.length t <= 4096)%nat).
Proof.
  rewrite parse_obj_inl_iff. unfold Models.read.
  destruct (Models.kwargs_of obj) as [kwargs|].
  - split.
    + intros (f & [= H1 H2 H3 H4 H5] & V1 & V2 & V3 & V4 & Ht).
      exists kwargs. split; [reflexivity|].
      apply field_of_Str in H1, H2, H3, H4.
      split; [exact H1|]. split; [exact H2|]. split; [exact H3|].
      split; [exact H4|]. split; [exact V1|]. split; [exact V2|].
      split; [exact V3|]. split; [exact V4|].
      destruct Ht as [[Hf Hn] | (t & Hf & Hs & Hlen)].
      * left. split; [|exact Hn]. apply field_of_absent.
        rewrite H5. exact Hf.
      * right. exists t. split; [|split; assumption].
        apply field_of_Str. now rewrite H5.
    + intros (kw & [= <-] & H1 & H2 & H3 & H4 & V1 & V2 & V3 & V4 & Ht).
      apply field_of_Str in H1, H2, H3, H4.
      exists (Models.field_of (Models.get "text" kwargs)).
      split; [now rewrite H1, H2, H3, H4|].
      split; [exact V1|]. split; [exact V2|]. split; [exact V3|].
      split; [exact V4|].
      destruct Ht as [[Hf Hn] | (t & Hf & Hs & Hlen)].
      * left. split; [|exact Hn]. now apply field_of_absent.
      * right. exists t. split; [|split; assumption].
        now apply field_of_Str.
  - split.
    + intros (f & H & _). discriminate.
    + intros (kw & H & _). discriminate.
Qed.

Lemma parse_obj_accepts_exactly_witness :
  Models.parse_obj Models.iso_profile
    (Models.read
       (Models.PyList
          [ Models.PyList [Models.PyStr "message_id"; Models.PyNumber "7"];
            Models.PyList [Models.PyStr "from_"; Models.PyStr "+919876543210"];
            Models.PyList [Models.PyStr "to"; Models.PyStr "+14155550100"];
            Models.PyList [Models.PyStr "ts";
                           Models.PyStr "2025-01-15T10:00:00Z"];
            Models.PyList [Models.PyStr "text"; Models.PyNone] ]))
  = inl {| Models.message_id := "7";
           Models.from_ := "+919876543210";
           Models.to := "+14155550100";
           Models.ts := "2025-01-15T10:00:00Z";
           Models.text := None |}.
Proof.
  apply (parse_obj_accepts_exactly Models.iso_profile).
  eexists. split; [reflexivity|].
  split; [reflexivity|]. split; [reflexivity|]. split; [reflexivity|].
  split; [reflexivity|]. split; [reflexivity|]. split; [reflexivity|].
  split; [reflexivity|]. split; [reflexivity|].
  left. split; [right|]; reflexivity.
Defined.

(** Documents that are no JSON object of the five keys: a list of
    pairs and a dict that names the sender [from_] are read like the
    object; a dict with a key [__pydantic_self__], a list with a key
    that is no string and a number give no keyword arguments. *)
Example read_documents :
  Models.read
    (Models.PyList
       [ Models.PyStr "ab";
         Models.PyList [Models.PyStr "to"; Models.PyBool true];
         Models.PyDict [("ts"%string, Models.PyNone);
                        ("text"%string, Models.PyNone);
                        ("ts"%string, Models.PyNone)] ])
  = Models.JObject Models.Missing Models.Missing (Models.Str "True")
      (Models.Str "text") Models.Missing
  /\ Models.read
       (Models.PyDict [("from_"%string, Models.PyStr "+14155550100");
                       ("text"%string, Models.PyList [])])
     = Models.JObject Models.Missing (Models.Str "+14155550100")
         Models.Missing Models.Missing Models.NotStr
  /\ Models.read
       (Models.PyDict [("__pydantic_self__"%string, Models.PyNone)])
     = Models.JOther
  /\ Models.read
       (Models.PyList [Models.PyList [Models.PyNumber "1"; Models.PyNone]])
     = Models.JOther
  /\ Models.read (Models.PyNumber "1") = Models.JOther
  /\ Models.read (Models.PyStr EmptyString)
     = Models.JObject Models.Missing Models.Missing Models.Missing
         Models.Missing Models.Missing.
Proof. repeat split. Qed.

(** ** The ingestion endpoint and the store *)

Section WebhookStore.
Import Py.
Variable fromisoformat : string -> bool.

Lemma insert_then_exists now msg db :
  existsb (fun r => String.eqb (Storage.message_id r)
                      (Models.message_id msg))
    (fst (Storage.insert_message_idempotent now msg db)) = true.
Proof.
  unfold Storage.insert_message_idempotent.
  destruct (existsb _ db) eqn:E; cbn [fst]; [exact E|].
  rewrite existsb_app. cbn [existsb Storage.message_id].
  now rewrite String.eqb_refl, orb_true_r.
Qed.

Lemma insert_effect now msg db :
  let '(db', created) := Storage.insert_message_idempotent now msg db in
  (created = false /\ db' = db)
  \/ (created = true
      /\ exists row, db' = (db ++ [row])%list
                     /\ Storage.message_id row = Models.message_id msg
                     /\ Storage.from_msisdn row = Models.from_ msg
                     /\ Storage.to_msisdn row = Models.to msg
                     /\ Storage.ts row = Models.ts msg
                     /\ Storage.text row = Models.text msg
                     /\ forall r, In r db ->
                          Storage.message_id r <> Storage.message_id row).
Proof.
  unfold Storage.insert_message_idempotent.
  destruct (existsb _ db) eqn:E; [now left|].
  right. split; [reflexivity|]. eexists. split; [reflexivity|].
  cbn. repeat split. intros r Hr Heq.
  rewrite (existsb_id_true db _ r Hr Heq) in E. discriminate.
Qed.

(** What a request that is answered 200 went through. *)
Lemma webhook_ok_inv settings now req db content :
  fst (Main.webhook_endpoint fromisoformat settings now req db)
  = Main.JSONResponse Main.HTTP_200_OK content ->
  truthy (Main.webhook_secret settings) = true
  /\ Main.verify_signature (Main.webhook_secret settings)
       (Main.raw_body req) (Main.x_signature req) = Returned true
  /\ exists body_json payload,
       Main.body_loads req = Main.Loaded body_json
       /\ Models.parse_obj fromisoformat body_json = inl payload
       /\ snd (Main.webhook_endpoint fromisoformat settings now req db)
          = fst (Storage.insert_message_idempotent now payload db).
Proof.
  unfold Main.webhook_endpoint.
  destruct (truthy (Main.webhook_secret settings)); cbn [negb];
    [|discriminate].
  destruct (Main.verify_signature _ _ _) as [[|]|e]; try discriminate.
  destruct (Main.body_loads req) as [| |body_json]; try discriminate.
  destruct (Models.parse_obj fromisoformat body_json) as [payload|errs] eqn:P;
    [|discriminate].
  destruct (Storage.insert_message_idempotent now payload db) eqn:I.
  intros _. repeat split. exists body_json, payload. now rewrite I.
Qed.

(** A request that is not answered 200 leaves the store as it was. *)
Lemma webhook_not_ok_store settings now req db :
  (forall content,
      fst (Main.webhook_endpoint fromisoformat settings now req db)
      <> Main.JSONResponse Main.HTTP_200_OK content) ->
  snd (Main.webhook_endpoint fromisoformat settings now req db) = db.
Proof.
  unfold Main.webhook_endpoint.
  destruct (truthy (Main.webhook_secret settings)); cbn [negb];
    [|reflexivity].
  destruct (Main.verify_signature _ _ _) as [[|]|e]; try reflexivity.
  destruct (Main.body_loads req) as [| |body_json]; try reflexivity.
  destruct (Models.parse_obj fromisoformat body_json) as [payload|errs];
    [|reflexivity].
  destruct (Storage.insert_message_idempotent now payload db).
  intros H. exfalso. now apply (H [("status", "ok")]%string).
Qed.

End WebhookStore.

(** X15.  Whatever the request, [POST /webhook] leaves the store as it
    was or adds one row at its end, with a [message_id] that no stored
    row had; it never removes or rewrites a row, it keeps the ids
    unique, and it leaves the store as it was whenever its answer is
    not the 200 acknowledgement. *)
Theorem webhook_endpoint_store_effect
    (fromisoformat : string -> bool) (settings : Main.Settings)
    (now : string) (req : Main.request) (db : Storage.table) :
  let db' := snd (Main.webhook_endpoint fromisoformat settings now req db) in
  (db' = db
   \/ exists row, db' = (db ++ [row])%list
                  /\ forall r, In r db ->
                       Storage.message_id r <> Storage.message_id row)
  /\ (Storage.unique_ids db -> Storage.unique_ids db')
  /\ ((forall content,
          fst (Main.webhook_endpoint fromisoformat settings now req db)
          <> Main.JSONResponse Main.HTTP_200_OK content) ->
      db' = db).
Proof.
  cbv zeta. split; [|split].
  - destruct (Main.webhook_endpoint fromisoformat settings now req db)
      as [resp db'] eqn:W.
    destruct resp as [code detail | code content | e];
      try (left; rewrite <- (webhook_not_ok_store fromisoformat settings now
                               req db) by (rewrite W; discriminate);
           now rewrite W).
    destruct (Z.eq_dec code Main.HTTP_200_OK) as [-> | Hne].
    + pose proof (webhook_ok_inv fromisoformat settings now req db content)
        as H. rewrite W in H.
      destruct (H eq_refl) as (_ & _ & j & payload & _ & _ & Hdb).
      cbn [snd] in *. rewrite Hdb.
      pose proof (insert_effect now payload db) as He.
      destruct (Storage.insert_message_idempotent now payload db)
        as [db1 created].
      destruct He as [[_ ->] | (_ & row & -> & _ & _ & _ & _ & _ & Hfresh)];
        [now left|].
      right. now exists row.
    + left. rewrite <- (webhook_not_ok_store fromisoformat settings now
                          req db); [now rewrite W|].
      rewrite W. intros c [= E _]. contradiction.
  - intros Hu.
    destruct (Main.webhook_endpoint fromisoformat settings now req db)
      as [resp db'] eqn:W.
    destruct resp as [code detail | code content | e];
      try (rewrite <- (webhook_not_ok_store fromisoformat settings now
                         req db) in Hu by (rewrite W; discriminate);
           now rewrite W in Hu).
    destruct (Z.eq_dec code Main.HTTP_200_OK) as [-> | Hne].
    + pose proof (webhook_ok_inv fromisoformat settings now req db content)
        as H. rewrite W in H.
      destruct (H eq_refl) as (_ & _ & j & payload & _ & _ & Hdb).
      cbn [snd] in *. rewrite Hdb. now apply insert_unique_ids.
    + rewrite <- (webhook_not_ok_store fromisoformat settings now
                    req db) in Hu; [now rewrite W in Hu|].
      rewrite W. intros c [= E _]. contradiction.
  - apply webhook_not_ok_store.
Qed.

Lemma webhook_endpoint_store_effect_witness :
  snd (Main.webhook_endpoint Models.iso_profile Samples.settings
         "2025-01-15 10:00:03"
         (Samples.signed_request "wrongsecret" Main.JSONDecodeError)
         Samples.db1)
  = Samples.db1.
Proof.
  destruct (webhook_endpoint_store_effect Models.iso_profile Samples.settings
              "2025-01-15 10:00:03"
              (Samples.signed_request "wrongsecret" Main.JSONDecodeError)
              Samples.db1) as (_ & _ & H).
  apply H. intros content. vm_compute. intros E. discriminate E.
Defined.

(** X16.  A request that [POST /webhook] has answered with the 200
    acknowledgement gets the same answer when it is delivered again, at
    any later time, and the second delivery leaves the store as the
    first one left it. *)
Theorem webhook_endpoint_redelivery
    (fromisoformat : string -> bool) (settings : Main.Settings)
    (now later : string) (req : Main.request) (db : Storage.table)
    (content : list (string * string)) :
  fst (Main.webhook_endpoint fromisoformat settings now req db)
  = Main.JSONResponse Main.HTTP_200_OK content ->
  Main.webhook_endpoint fromisoformat settings later req
    (snd (Main.webhook_endpoint fromisoformat settings now req db))
  = (fst (Main.webhook_endpoint fromisoformat settings now req db),
     snd (Main.webhook_endpoint fromisoformat settings now req db)).
Proof.
  intros Hok.
  destruct (webhook_ok_inv fromisoformat settings now req db content Hok)
    as (Hs & Hv & j & payload & Hl & Hp & Hdb).
  rewrite Hdb. unfold Main.webhook_endpoint at 1 2.
  rewrite Hs, Hv, Hl, Hp. cbn [negb].
  destruct (Storage.insert_message_idempotent now payload db)
    as [db1 created] eqn:I. cbn [fst].
  assert (Hex : existsb (fun r => String.eqb (Storage.message_id r)
                                    (Models.message_id payload)) db1 = true).
  { pose proof (insert_then_exists now payload db) as H.
    now rewrite I in H. }
  unfold Storage.insert_message_idempotent. now rewrite Hex.
Qed.

Lemma webhook_endpoint_redelivery_witness :
  Main.webhook_endpoint Models.iso_profile Samples.settings
    "2025-01-15 10:00:09"
    (Samples.signed_request "testsecret"
       (Main.Loaded
          (Samples.payload "m1" "+919876543210" "+14155550100"
             "2025-01-15T10:00:00Z" (Models.Str "Hello"))))
    Samples.db1
  = (Main.JSONResponse 200 [("status", "ok")]%string, Samples.db1).
Proof.
  apply (webhook_endpoint_redelivery Models.iso_profile Samples.settings
           "2025-01-15 10:00:01" "2025-01-15 10:00:09"
           (Samples.signed_request "testsecret"
              (Main.Loaded
                 (Samples.payload "m1" "+919876543210" "+14155550100"
                    "2025-01-15T10:00:00Z" (Models.Str "Hello"))))
           Storage.init_db [("status", "ok")]%string).
  vm_compute. reflexivity.
Defined.

(** ** The ingestion endpoint and the counters *)

Section WebhookCounters.
Import Py.
Variable fromisoformat : string -> bool.

(** The counters change neither the answer nor the store. *)
Lemma app_webhook_main settings now req db m :
  fst (App.webhook_endpoint fromisoformat settings now req db m)
  = Main.webhook_endpoint fromisoformat settings now req db.
Proof.
  unfold App.webhook_endpoint, Main.webhook_endpoint.
  destruct (negb (truthy (Main.webhook_secret settings))); [reflexivity|].
  destruct (Main.verify_signature _ _ _) as [[|]|e]; try reflexivity.
  destruct (Main.body_loads req) as [| |body_json]; try reflexivity.
  destruct (Models.parse_obj fromisoformat body_json); [|reflexivity].
  now destruct (Storage.insert_message_idempotent now m0 db).
Qed.

(** The three ways a request moves the store and the registry. *)
Lemma app_webhook_cases settings now req db m :
  let '(resp, db', m') :=
    App.webhook_endpoint fromisoformat settings now req db m in
  (db' = db /\ m' = m /\ Vocab.label_of resp = None)
  \/ (db' = db
      /\ exists l, l <> Metrics.ok /\ Vocab.label_of resp = Some l
                   /\ m' = Metrics.inc_requests l m)
  \/ (exists body_json payload,
        Models.parse_obj fromisoformat body_json = inl payload
        /\ Vocab.label_of resp = Some Metrics.ok
        /\ db' = fst (Storage.insert_message_idempotent now payload db)
        /\ m' = if snd (Storage.insert_message_idempotent now payload db)
                then Metrics.inc_stored (Metrics.inc_requests Metrics.ok m)
                else Metrics.inc_requests Metrics.ok m).
Proof.
  unfold App.webhook_endpoint.
  destruct (negb (truthy (Main.webhook_secret settings))); [now left|].
  destruct (Main.verify_signature _ _ _) as [[|]|e]; [| |now left].
  - destruct (Main.body_loads req) as [| |body_json]; [now left | |].
    + right. left. split; [reflexivity|].
      exists Metrics.invalid_json. now repeat split.
    + destruct (Models.parse_obj fromisoformat body_json)
        as [payload|errs] eqn:P.
      * destruct (Storage.insert_message_idempotent now payload db)
          as [db1 created] eqn:I.
        right. right. exists body_json, payload. rewrite I.
        now repeat split.
      * right. left. split; [reflexivity|].
        exists Metrics.invalid_payload. now repeat split.
  - right. left. split; [reflexivity|].
    exists Metrics.invalid_signature. now repeat split.
Qed.

Lemma insert_length now msg db :
  Z.of_nat (List.length (fst (Storage.insert_message_idempotent now msg db)))
  = Z.of_nat (List.length db)
    + (if snd (Storage.insert_message_idempotent now msg db) then 1 else 0).
Proof.
  unfold Storage.insert_message_idempotent.
  destruct (existsb _ db); cbn [fst snd]; [lia|].
  rewrite length_app. cbn [List.length]. lia.
Qed.

End WebhookCounters.

(** X17.  A webhook request answers and changes the store in the same
    way whatever the counters hold; it moves [messages_stored_total] by
    exactly the number of rows that it adds to the store, and it adds 1
    to the counter of the label of its answer ([ok] for the
    acknowledgement, [invalid_signature] for 401, [invalid_json] for
    400, [invalid_payload] for 422) and nothing to the others; the
    answer 500 for a missing secret and an exception move no counter. *)
Theorem webhook_endpoint_counters
    (fromisoformat : string -> bool) (settings : Main.Settings)
    (now : string) (req : Main.request) (db : Storage.table)
    (m : Metrics.registry) :
  let resp :=
    fst (fst (App.webhook_endpoint fromisoformat settings now req db m)) in
  let db' :=
    snd (fst (App.webhook_endpoint fromisoformat settings now req db m)) in
  let m' := snd (App.webhook_endpoint fromisoformat settings now req db m) in
  (resp, db') = Main.webhook_endpoint fromisoformat settings now req db
  /\ Metrics.messages_stored_total m' - Metrics.messages_stored_total m
     = Z.of_nat (List.length db') - Z.of_nat (List.length db)
  /\ (forall l,
        Metrics.webhook_requests_total m' l
        = Metrics.webhook_requests_total m l + Vocab.counted resp l).
Proof.
  cbv zeta. split.
  - rewrite <- app_webhook_main with (m := m).
    now destruct (App.webhook_endpoint fromisoformat settings now req db m)
      as [[resp db'] m'].
  - pose proof (app_webhook_cases fromisoformat settings now req db m) as H.
    destruct (App.webhook_endpoint fromisoformat settings now req db m)
      as [[resp db'] m']. cbn [fst snd]. unfold Vocab.counted.
    destruct H as [(-> & -> & ->) | [(-> & l0 & Hl0 & -> & ->)
                  | (j & payload & _ & -> & -> & ->)]].
    + split; [lia|]. intros l. lia.
    + split; [cbn; lia|]. intros l. cbn.
      destruct (Metrics.result_eqb l l0); lia.
    + rewrite insert_length.
      destruct (snd (Storage.insert_message_idempotent now payload db));
        (split; [cbn; lia|]); intros l; cbn;
        destruct (Metrics.result_eqb l Metrics.ok); lia.
Qed.

(** X18.  In every state that the service reaches from the empty store
    and a fresh registry by answering webhook requests, the ids of the
    stored rows are unique, every stored row passes the validators of
    the schema, [messages_stored_total] is the number of stored rows
    and is at most the [ok] count of [webhook_requests_total], and no
    counter is negative. *)
Theorem served_invariant
    (fromisoformat : string -> bool) (settings : Main.Settings)
    (db : Storage.table) (m : Metrics.registry) :
  Vocab.served fromisoformat settings db m ->
  Storage.unique_ids db
  /\ (forall r, In r db -> Vocab.valid_row fromisoformat r)
  /\ Metrics.messages_stored_total m = Z.of_nat (List.length db)
  /\ Metrics.messages_stored_total m
     <= Metrics.webhook_requests_total m Metrics.ok
  /\ (forall l, 0 <= Metrics.webhook_requests_total m l).
Proof.
  induction 1 as [|now req db m _ (Hu & Hv & Hs & Hle & Hpos)].
  - split; [constructor|]. split; [intros x []|].
    split; [reflexivity|]. split; [cbn; lia|]. intros l. cbn. lia.
  - pose proof (app_webhook_cases fromisoformat settings now req db m) as H.
    destruct (App.webhook_endpoint fromisoformat settings now req db m)
      as [[resp db'] m']. cbn [fst snd].
    destruct H as [(-> & -> & _) | [(-> & l0 & Hl0 & _ & ->)
                  | (j & payload & Hp & _ & -> & ->)]].
    + auto.
    + split; [exact Hu|]. split; [exact Hv|]. split; [exact Hs|]. split.
      * cbn. destruct l0; try congruence; cbn; lia.
      * intros l. cbn. specialize (Hpos l).
        destruct (Metrics.result_eqb l l0); lia.
    + split; [now apply insert_unique_ids|]. split.
      * intros r Hr.
        pose proof (insert_effect now payload db) as He.
        destruct (Storage.insert_message_idempotent now payload db)
          as [db1 created]. cbn [fst] in Hr.
        destruct He
          as [[_ ->] | (_ & row & -> & E1 & E2 & E3 & E4 & E5 & _)];
          [now apply Hv|].
        apply in_app_or in Hr as [Hr | [<- | []]]; [now apply Hv|].
        pose proof (parse_obj_text_valid fromisoformat j payload Hp) as Ht.
        apply parse_obj_inl in Hp as (f & _ & V1 & V2 & V3 & V4 & _).
        unfold Vocab.valid_row. rewrite E1, E2, E3, E4, E5. auto.
      * rewrite insert_length.
        pose proof (Hpos Metrics.ok) as Hok.
        destruct (snd (Storage.insert_message_idempotent now payload db)).
        -- split; [cbn; lia|]. split; [cbn; lia|]. intros l. cbn.
           specialize (Hpos l). destruct (Metrics.result_eqb l Metrics.ok); lia.
        -- split; [cbn; lia|]. split; [cbn; lia|]. intros l. cbn.
           specialize (Hpos l). destruct (Metrics.result_eqb l Metrics.ok); lia.
Qed.

Lemma served_invariant_witness :
  Metrics.messages_stored_total
    (snd (App.webhook_endpoint Models.iso_profile Samples.settings
            "2025-01-15 10:00:01"
            (Samples.signed_request "testsecret"
               (Main.Loaded
                  (Samples.payload "m1" "+919876543210" "+14155550100"
                     "2025-01-15T10:00:00Z" (Models.Str "Hello"))))
            Storage.init_db Metrics.fresh))
  = Z.of_nat
      (List.length
         (snd (fst (App.webhook_endpoint Models.iso_profile Samples.settings
                      "2025-01-15 10:00:01"
                      (Samples.signed_request "testsecret"
                         (Main.Loaded
                            (Samples.payload "m1" "+919876543210"
                               "+14155550100" "2025-01-15T10:00:00Z"
                               (Models.Str "Hello"))))
                      Storage.init_db Metrics.fresh)))).
Proof.
  destruct (served_invariant Models.iso_profile Samples.settings _ _
              (Vocab.served_request Models.iso_profile Samples.settings
                 "2025-01-15 10:00:01"
                 (Samples.signed_request "testsecret"
                    (Main.Loaded
                       (Samples.payload "m1" "+919876543210" "+14155550100"
                          "2025-01-15T10:00:00Z" (Models.Str "Hello"))))
                 Storage.init_db Metrics.fresh
                 (Vocab.served_start Models.iso_profile Samples.settings)))
    as (_ & _ & H & _).
  exact H.
Defined.

(** ** The listing endpoint *)





